(** * Jaga-pohon: the tree inventory store, its persistence and the login gate

    A shallow embedding of [App.tsx] (the login gate), [MainApp.tsx] (the
    inventory store, its persistence and the bulk import), [constants.ts]
    (the seed dataset) and the type declarations of [types.ts].

    JavaScript numbers are IEEE 754 binary64 values, so a [number] is one of
    Rocq's primitive floats: [NaN], the infinities and the two zeros are
    values of the type, [===] is the IEEE comparison and [+] the IEEE sum.
    React state is passed explicitly; an effect that depends on a piece of
    state is run right after every operation that replaces it. *)

From Stdlib Require Import Ascii String.
From Corelib Require Import PrimFloat FloatClass.
From stdpp Require Import gmap strings list.

Set Warnings "-inexact-float,-register-all".
Local Open Scope string_scope.

(** ** JavaScript values used by the program *)

Definition number := float.

(** [a === b] on two numbers. *)
Definition strict_eq (a b : number) : bool := PrimFloat.eqb a b.

(** Truthiness: a number is falsy when it is [0], [-0] or [NaN]; a string
    when it is empty. *)
Definition truthy_number (x : number) : bool := negb (is_zero x || is_nan x).

Definition truthy_string (s : string) : bool :=
  match s with
  | EmptyString => false
  | String _ _ => true
  end.

(** A thrown value. [message] is what [err.message] reads: [None] for a
    thrown value without that property (the [ProgressEvent] that
    [reader.onerror] rejects with). A thrown value is taken to be an object
    or a primitive other than [null] and [undefined], so that reading
    [err.message] does not throw in its turn. *)
Record Thrown := { message : option string }.

Definition Error (msg : string) : Thrown := {| message := Some msg |}.

(** The completion of a call: it returns or it throws. *)
Inductive Completion (A : Type) :=
| Normal (a : A)
| Throw (e : Thrown).
Arguments Normal {A} a.
Arguments Throw {A} e.

(** ** types.ts *)

(** [AppView]: the literals ['form'], ['map'] and ['dashboard']. *)
Inductive AppView := view_form | view_map | view_dashboard.

Inductive TreeCondition := HEALTHY | DAMAGED | DEAD.

(** The string value of each member of the [TreeCondition] enum. *)
Definition TreeCondition_value (c : TreeCondition) : string :=
  match c with
  | HEALTHY => "Sehat"
  | DAMAGED => "Rusak"
  | DEAD => "Mati"
  end.

Inductive ProximityToBuilding := None_ | Near | Far.

Definition ProximityToBuilding_value (p : ProximityToBuilding) : string :=
  match p with
  | None_ => "None"
  | Near => "Near"
  | Far => "Far"
  end.

Record CarbonMetrics := {
  biomass : number;
  carbonStored : number;
  co2Sequestrated : number;
}.

Module annualMonetaryValue.
Record t := {
  total : number;
  carbon : number;
  stormwater : number;
  airQuality : number;
  energy : number;
}.
End annualMonetaryValue.

Record EcosystemServices := {
  stormwaterInterceptedLiters : number;
  airPollutionRemovedGrams : number;
  energySavingsIDR : number;
  annualMonetaryValue : annualMonetaryValue.t;
}.

Record TreeData := {
  id : number;
  species : string;
  dbh : number;
  height : number;
  condition : TreeCondition;
  proximityToBuilding : ProximityToBuilding;
  notes : string;
  photo : string;
  latitude : number;
  longitude : number;
  inventoryDate : string;
  carbon : CarbonMetrics;
  ecosystemServices : EcosystemServices;
}.

(** [Omit<TreeData, 'id' | 'carbon' | 'ecosystemServices'>]: what the data
    collection form hands to [handleAddTree]. *)
Module NewTreeData.
Record t := {
  species : string;
  dbh : number;
  height : number;
  condition : TreeCondition;
  proximityToBuilding : ProximityToBuilding;
  notes : string;
  photo : string;
  latitude : number;
  longitude : number;
  inventoryDate : string;
}.
End NewTreeData.

Module TreeAnalysisResult.
Record t := {
  species : string;
  latitude : number;
  longitude : number;
  condition : TreeCondition;
  estimatedDbh : number;
  estimatedHeight : number;
}.
End TreeAnalysisResult.

Module BulkUploadProgress.
Record failure := { fileName : string; error : string }.
Record t := {
  total : nat;
  processed : nat;
  successes : nat;
  failures : list failure;
}.
End BulkUploadProgress.

(** ** The platform: exceptions, JSON and Web Storage *)

(** A computation over a piece of mutable platform state [S] that returns or
    throws. *)
Definition Eff (S A : Type) : Type := S -> Completion A * S.

Definition ret {S A} (a : A) : Eff S A := fun s => (Normal a, s).

Definition throw {S A} (e : Thrown) : Eff S A := fun s => (Throw e, s).

Definition bind {S A B} (m : Eff S A) (k : A -> Eff S B) : Eff S B :=
  fun s =>
    match m s with
    | (Normal a, s') => k a s'
    | (Throw e, s') => (Throw e, s')
    end.

(** [try { body } catch (e) { handler e }]. *)
Definition try_catch {S A} (body : Eff S A) (handler : Thrown -> Eff S A) : Eff S A :=
  fun s =>
    match body s with
    | (Normal a, s') => (Normal a, s')
    | (Throw e, s') => handler e s'
    end.

(** [try { body } finally { finalizer }]. *)
Definition try_finally {S A} (body : Eff S A) (finalizer : Eff S unit) : Eff S A :=
  fun s =>
    match body s with
    | (r, s') =>
        match finalizer s' with
        | (Normal _, s'') => (r, s'')
        | (Throw e, s'') => (Throw e, s'')
        end
    end.

Declare Scope eff_scope.
Delimit Scope eff_scope with eff.
Notation "'let*' x ':=' m 'in' k" := (bind m (fun x => k))
  (at level 10, x name, m at level 100, k at level 200) : eff_scope.

Module JSON.
(** A JSON document. The members of an object are kept in order. *)
Inductive value :=
| Null
| Bool (b : bool)
| Number (x : number)
| String_ (s : string)
| Array (elements : list value)
| Object (members : list (string * value)).

(** A stored text. The program asks two things of a text it reads back:
    whether it is the empty string, and what [JSON.parse] makes of it. A
    text is therefore kept as either the document it is the JSON text of,
    or as raw characters that [JSON.parse] rejects. *)
Inductive text :=
| Document (v : value)
| Malformed (raw : string).

Definition truthy (t : text) : bool :=
  match t with
  | Document _ => true
  | Malformed raw => truthy_string raw
  end.

Definition SyntaxError : Thrown := Error "SyntaxError".

Definition parse (t : text) : Completion value :=
  match t with
  | Document v => Normal v
  | Malformed _ => Throw SyntaxError
  end.

Definition stringify (v : value) : text := Document v.

(** [Array.isArray]. *)
Definition isArray (v : value) : bool :=
  match v with
  | Array _ => true
  | _ => false
  end.

(** The member of an object under a key. A parsed object has one member
    per key. *)
Fixpoint member (key : string) (members : list (string * value)) : option value :=
  match members with
  | [] => None
  | (k, v) :: rest => if String.eqb k key then Some v else member key rest
  end.
End JSON.

Module Storage.
(** A Web Storage area holding values of type [V]. When [blocked], every
    use of the area raises (the browser denies access to it); when
    [quotaExceeded], a write raises because it does not fit. The two flags
    stand for the whole run: an area either takes every write or refuses
    every write. In a browser whether a write fits depends on its size, so
    that one write can be taken and a later one refused; the statements
    below that compare what successive writes leave are made for an area
    that takes its writes. *)
Record t (V : Type) := {
  blocked : bool;
  quotaExceeded : bool;
  items : gmap string V;
}.
Arguments blocked {V} _.
Arguments quotaExceeded {V} _.
Arguments items {V} _.

Definition SecurityError : Thrown := Error "SecurityError".
Definition QuotaExceededError : Thrown := Error "QuotaExceededError".

Definition getItem {V} (key : string) : Eff (t V) (option V) :=
  fun s =>
    if blocked s then (Throw SecurityError, s)
    else (Normal (items s !! key), s).

Definition setItem {V} (key : string) (v : V) : Eff (t V) unit :=
  fun s =>
    if blocked s then (Throw SecurityError, s)
    else if quotaExceeded s then (Throw QuotaExceededError, s)
    else (Normal tt, {| blocked := blocked s; quotaExceeded := quotaExceeded s;
                        items := <[key := v]> (items s) |}).

Definition removeItem {V} (key : string) : Eff (t V) unit :=
  fun s =>
    if blocked s then (Throw SecurityError, s)
    else (Normal tt, {| blocked := blocked s; quotaExceeded := quotaExceeded s;
                        items := delete key (items s) |}).
End Storage.

(** ** The inventory as a JSON document *)

(** What [JSON.stringify] writes for a number: [NaN] and the infinities
    become [null], negative zero is written [0]. *)
Definition json_of_number (x : number) : JSON.value :=
  match classify x with
  | NaN | PInf | NInf => JSON.Null
  | NZero => JSON.Number 0%float
  | _ => JSON.Number x
  end.

Definition json_of_CarbonMetrics (c : CarbonMetrics) : JSON.value :=
  JSON.Object
    [ ("biomass", json_of_number (biomass c));
      ("carbonStored", json_of_number (carbonStored c));
      ("co2Sequestrated", json_of_number (co2Sequestrated c)) ].

Definition json_of_annualMonetaryValue (a : annualMonetaryValue.t) : JSON.value :=
  JSON.Object
    [ ("total", json_of_number (annualMonetaryValue.total a));
      ("carbon", json_of_number (annualMonetaryValue.carbon a));
      ("stormwater", json_of_number (annualMonetaryValue.stormwater a));
      ("airQuality", json_of_number (annualMonetaryValue.airQuality a));
      ("energy", json_of_number (annualMonetaryValue.energy a)) ].

Definition json_of_EcosystemServices (e : EcosystemServices) : JSON.value :=
  JSON.Object
    [ ("stormwaterInterceptedLiters", json_of_number (stormwaterInterceptedLiters e));
      ("airPollutionRemovedGrams", json_of_number (airPollutionRemovedGrams e));
      ("energySavingsIDR", json_of_number (energySavingsIDR e));
      ("annualMonetaryValue", json_of_annualMonetaryValue (annualMonetaryValue e)) ].

(** The members are written in the order of the interface; the order has
    no bearing on what is read back. *)
Definition json_of_TreeData (t : TreeData) : JSON.value :=
  JSON.Object
    [ ("id", json_of_number (id t));
      ("species", JSON.String_ (species t));
      ("dbh", json_of_number (dbh t));
      ("height", json_of_number (height t));
      ("condition", JSON.String_ (TreeCondition_value (condition t)));
      ("proximityToBuilding", JSON.String_ (ProximityToBuilding_value (proximityToBuilding t)));
      ("notes", JSON.String_ (notes t));
      ("photo", JSON.String_ (photo t));
      ("latitude", json_of_number (latitude t));
      ("longitude", json_of_number (longitude t));
      ("inventoryDate", JSON.String_ (inventoryDate t));
      ("carbon", json_of_CarbonMetrics (carbon t));
      ("ecosystemServices", json_of_EcosystemServices (ecosystemServices t)) ].

Definition json_of_trees (trees : list TreeData) : JSON.value :=
  JSON.Array (json_of_TreeData <$> trees).

(** Reading a parsed document at the types of [types.ts]. The program does
    not do this: it uses the parsed array as a [TreeData[]] as it is. The
    functions below say when that use is sound, and which records the array
    then holds. *)
Definition number_of_json (v : JSON.value) : option number :=
  match v with
  | JSON.Number x => Some x
  | _ => None
  end.

Definition string_of_json (v : JSON.value) : option string :=
  match v with
  | JSON.String_ s => Some s
  | _ => None
  end.

Definition TreeCondition_of_json (v : JSON.value) : option TreeCondition :=
  match v with
  | JSON.String_ s =>
      if String.eqb s "Sehat" then Some HEALTHY
      else if String.eqb s "Rusak" then Some DAMAGED
      else if String.eqb s "Mati" then Some DEAD
      else None
  | _ => None
  end.

Definition ProximityToBuilding_of_json (v : JSON.value) : option ProximityToBuilding :=
  match v with
  | JSON.String_ s =>
      if String.eqb s "None" then Some None_
      else if String.eqb s "Near" then Some Near
      else if String.eqb s "Far" then Some Far
      else None
  | _ => None
  end.

(** A member of an object, read at a type. *)
Definition get {A} (read : JSON.value -> option A) (key : string)
    (members : list (string * JSON.value)) : option A :=
  JSON.member key members ≫= read.

Definition CarbonMetrics_of_json (v : JSON.value) : option CarbonMetrics :=
  match v with
  | JSON.Object ms =>
      b ← get number_of_json "biomass" ms;
      c ← get number_of_json "carbonStored" ms;
      s ← get number_of_json "co2Sequestrated" ms;
      Some {| biomass := b; carbonStored := c; co2Sequestrated := s |}
  | _ => None
  end.

Definition annualMonetaryValue_of_json (v : JSON.value) : option annualMonetaryValue.t :=
  match v with
  | JSON.Object ms =>
      t ← get number_of_json "total" ms;
      c ← get number_of_json "carbon" ms;
      s ← get number_of_json "stormwater" ms;
      a ← get number_of_json "airQuality" ms;
      e ← get number_of_json "energy" ms;
      Some {| annualMonetaryValue.total := t; annualMonetaryValue.carbon := c;
              annualMonetaryValue.stormwater := s; annualMonetaryValue.airQuality := a;
              annualMonetaryValue.energy := e |}
  | _ => None
  end.

Definition EcosystemServices_of_json (v : JSON.value) : option EcosystemServices :=
  match v with
  | JSON.Object ms =>
      s ← get number_of_json "stormwaterInterceptedLiters" ms;
      a ← get number_of_json "airPollutionRemovedGrams" ms;
      e ← get number_of_json "energySavingsIDR" ms;
      m ← get annualMonetaryValue_of_json "annualMonetaryValue" ms;
      Some {| stormwaterInterceptedLiters := s; airPollutionRemovedGrams := a;
              energySavingsIDR := e; annualMonetaryValue := m |}
  | _ => None
  end.

Definition TreeData_of_json (v : JSON.value) : option TreeData :=
  match v with
  | JSON.Object ms =>
      i ← get number_of_json "id" ms;
      sp ← get string_of_json "species" ms;
      d ← get number_of_json "dbh" ms;
      h ← get number_of_json "height" ms;
      c ← get TreeCondition_of_json "condition" ms;
      p ← get ProximityToBuilding_of_json "proximityToBuilding" ms;
      n ← get string_of_json "notes" ms;
      ph ← get string_of_json "photo" ms;
      la ← get number_of_json "latitude" ms;
      lo ← get number_of_json "longitude" ms;
      dt ← get string_of_json "inventoryDate" ms;
      ca ← get CarbonMetrics_of_json "carbon" ms;
      es ← get EcosystemServices_of_json "ecosystemServices" ms;
      Some {| id := i; species := sp; dbh := d; height := h; condition := c;
              proximityToBuilding := p; notes := n; photo := ph; latitude := la;
              longitude := lo; inventoryDate := dt; carbon := ca;
              ecosystemServices := es |}
  | _ => None
  end.

(** The initial value of the [trees] state: an array of records, or, when
    an element of the stored array is not a record of the [TreeData] shape,
    that array all the same (the program does not look at its elements). *)
Inductive Loaded :=
| Records (trees : list TreeData)
| Unchecked (elements : list JSON.value).

Definition as_TreeData_array (elements : list JSON.value) : Loaded :=
  match mapM TreeData_of_json elements with
  | Some trees => Records trees
  | None => Unchecked elements
  end.

(** ** App.tsx: the login gate *)

Definition ADMIN_PASSWORD : string := "jaga-pohon-admin".

(** The two pieces of React state of [App], and the session storage of the
    tab it runs in. *)
Record AppState := {
  isAuthenticated : bool;
  isLoading : bool;
  sessionStorage : Storage.t string;
}.

Definition setIsAuthenticated (b : bool) : Eff AppState unit :=
  fun st => (Normal tt, {| isAuthenticated := b; isLoading := isLoading st;
                           sessionStorage := sessionStorage st |}).

Definition setIsLoading (b : bool) : Eff AppState unit :=
  fun st => (Normal tt, {| isAuthenticated := isAuthenticated st; isLoading := b;
                           sessionStorage := sessionStorage st |}).

(** A call on the global [sessionStorage]. *)
Definition on_sessionStorage {A} (m : Eff (Storage.t string) A) : Eff AppState A :=
  fun st =>
    match m (sessionStorage st) with
    | (r, ss) => (r, {| isAuthenticated := isAuthenticated st; isLoading := isLoading st;
                        sessionStorage := ss |})
    end.

(** [useState<boolean>(false)], [useState<boolean>(true)]. *)
Definition App_initial (ss : Storage.t string) : AppState :=
  {| isAuthenticated := false; isLoading := true; sessionStorage := ss |}.

(** The effect run once after the first render: check session storage. *)
Definition sessionCheck : Eff AppState unit :=
  try_finally
    (try_catch
       (let* item := on_sessionStorage (Storage.getItem "isLoggedIn") in
        let loggedIn := bool_decide (item = Some "true") in
        setIsAuthenticated loggedIn)%eff
       (fun e => setIsAuthenticated false))
    (setIsLoading false).

(** The half second [handleLogin] waits before it looks at the password is
    a timer that always fires; it is not modelled. *)
Definition handleLogin (password : string) : Eff AppState bool :=
  if String.eqb password ADMIN_PASSWORD then
    (let* _ := try_catch (on_sessionStorage (Storage.setItem "isLoggedIn" "true"))
                         (fun e => ret tt) in
     let* _ := setIsAuthenticated true in
     ret true)%eff
  else ret false.

Definition handleLogout : Eff AppState unit :=
  (let* _ := try_catch (on_sessionStorage (Storage.removeItem "isLoggedIn"))
                       (fun e => ret tt) in
   setIsAuthenticated false)%eff.

(** What can happen to the page: it is loaded (or reloaded) in its tab, the
    login form is submitted, the logout button is pressed. *)
Inductive AppEvent :=
| PageLoad
| Login (password : string)
| Logout.

Definition App_step (st : AppState) (ev : AppEvent) : AppState :=
  match ev with
  | PageLoad => (sessionCheck (App_initial (sessionStorage st))).2
  | Login password => (handleLogin password st).2
  | Logout => (handleLogout st).2
  end.

Definition App_run (st : AppState) (evs : list AppEvent) : AppState :=
  foldl App_step st evs.

Definition is_Logout (ev : AppEvent) : bool :=
  match ev with
  | Logout => true
  | _ => false
  end.

(** ** MainApp.tsx: asynchronous calls *)

(** What becomes of an awaited promise: it is fulfilled, it is rejected, or
    it is never settled (the [await] does not resume). *)
Inductive Promise (A : Type) :=
| Resolved (a : A)
| Rejected (e : Thrown)
| Pending.
Arguments Resolved {A} a.
Arguments Rejected {A} e.
Arguments Pending {A}.

(** [const x = await p; k x] inside an [async] body. *)
Definition await {A B} (p : Promise A) (k : A -> Promise B) : Promise B :=
  match p with
  | Resolved a => k a
  | Rejected e => Rejected e
  | Pending => Pending
  end.

Notation "'let*' x ':=' 'await' p 'in' k" := (await p (fun x => k))
  (at level 10, x name, p at level 100, k at level 200) : eff_scope.

Record File := { name : string }.

(** What the browser, the image analysis service, the geolocation provider,
    the clock and the random source answer while one file is processed. *)
Record World := {
  (** [reader.readAsDataURL(file)]: [reader.onload] fires with
      [event.target.result], or [reader.onerror] fires with the error. *)
  FileReader_readAsDataURL : File -> Completion string;
  (** [img.src = ...]: [img.onload] fires, and then [img.width] and
      [img.height] are these; [None]: the data is not an image the browser
      can decode, and [img.onload] never fires. *)
  Image_onload : string -> option (number * number);
  (** [canvas.getContext('2d')] is not [null]. *)
  canvas_getContext : bool;
  (** [canvas.toDataURL(type, quality)] of the canvas of that width and
      height once the image is drawn on it. *)
  canvas_toDataURL : number -> number -> string -> number -> string;
  (** [analyzeTreeImage(base64, notes)] of [services/geminiService]. *)
  analyzeTreeImage : option string -> string -> Promise (option TreeAnalysisResult.t);
  (** [navigator.geolocation.getCurrentPosition(resolve, reject, ...)]:
      the latitude and longitude of [position.coords]. *)
  getCurrentPosition : Promise (number * number);
  Date_now : number;
  Math_random : number;
  (** [new Date().toISOString()]. *)
  Date_toISOString_now : string;
}.

(** The promise of [compressImage]. It is rejected by [reader.onerror] and
    by a missing canvas context, and resolved at the end of [img.onload];
    no handler is set for the case in which the image does not load, and
    the promise is then left unsettled. *)
Definition compressImage (w : World) (file : File) (quality : number) : Promise string :=
  match FileReader_readAsDataURL w file with
  | Throw error => Rejected error
  | Normal result =>
      match Image_onload w result with
      | None => Pending
      | Some (img_width, img_height) =>
          let MAX_WIDTH := 800%float in
          let scaleSize := (MAX_WIDTH / img_width)%float in
          let canvas_width := MAX_WIDTH in
          let canvas_height := (img_height * scaleSize)%float in
          if canvas_getContext w
          then Resolved (canvas_toDataURL w canvas_width canvas_height "image/jpeg" quality)
          else Rejected (Error "Could not get canvas context")
      end
  end.

(** [s.split(',')[1]]: the characters between the first comma and the next
    one, [None] ([undefined]) when [s] has no comma. *)
Fixpoint up_to_comma (s : string) : string :=
  match s with
  | EmptyString => EmptyString
  | String c rest => if Ascii.eqb c ","%char then EmptyString else String c (up_to_comma rest)
  end.

Fixpoint split_comma_1 (s : string) : option string :=
  match s with
  | EmptyString => None
  | String c rest => if Ascii.eqb c ","%char then Some (up_to_comma rest) else split_comma_1 rest
  end.

(** [err.message || 'Terjadi kesalahan tidak diketahui.'] *)
Definition message_or_default (err : Thrown) : string :=
  match message err with
  | Some m => if truthy_string m then m else "Terjadi kesalahan tidak diketahui."
  | None => "Terjadi kesalahan tidak diketahui."
  end.

(** ** MainApp.tsx: the inventory store *)

(** The React state of [MainApp] that the handlers below read or write,
    and the local storage of the browser. *)
Record MainAppState := {
  view : AppView;
  trees : list TreeData;
  editingTree : option TreeData;
  isBulkUploading : bool;
  bulkUploadProgress : option BulkUploadProgress.t;
  localStorage : Storage.t JSON.text;
}.

(** The effect that depends on [trees]: it runs after every render in
    which [trees] was replaced. *)
Definition persistTrees (trees : list TreeData) : Eff (Storage.t JSON.text) unit :=
  try_catch
    (Storage.setItem "treeInventoryData" (JSON.stringify (json_of_trees trees)))
    (fun e => ret tt).

(** [setTrees(update)], followed by the effect on the new value. *)
Definition setTrees (update : list TreeData -> list TreeData) (st : MainAppState) : MainAppState :=
  let trees' := update (trees st) in
  {| view := view st; trees := trees'; editingTree := editingTree st;
     isBulkUploading := isBulkUploading st; bulkUploadProgress := bulkUploadProgress st;
     localStorage := (persistTrees trees' (localStorage st)).2 |}.

Definition setView (v : AppView) (st : MainAppState) : MainAppState :=
  {| view := v; trees := trees st; editingTree := editingTree st;
     isBulkUploading := isBulkUploading st; bulkUploadProgress := bulkUploadProgress st;
     localStorage := localStorage st |}.

Definition setEditingTree (t : option TreeData) (st : MainAppState) : MainAppState :=
  {| view := view st; trees := trees st; editingTree := t;
     isBulkUploading := isBulkUploading st; bulkUploadProgress := bulkUploadProgress st;
     localStorage := localStorage st |}.

Definition setIsBulkUploading (b : bool) (st : MainAppState) : MainAppState :=
  {| view := view st; trees := trees st; editingTree := editingTree st;
     isBulkUploading := b; bulkUploadProgress := bulkUploadProgress st;
     localStorage := localStorage st |}.

Definition setBulkUploadProgress
    (update : option BulkUploadProgress.t -> option BulkUploadProgress.t)
    (st : MainAppState) : MainAppState :=
  {| view := view st; trees := trees st; editingTree := editingTree st;
     isBulkUploading := isBulkUploading st;
     bulkUploadProgress := update (bulkUploadProgress st);
     localStorage := localStorage st |}.

(** The three updates of the progress record in [handleBulkUpload]; each
    is [prev => prev ? { ...prev, ... } : null]. *)
Definition count_success (prev : option BulkUploadProgress.t) : option BulkUploadProgress.t :=
  match prev with
  | Some p => Some {| BulkUploadProgress.total := BulkUploadProgress.total p;
                      BulkUploadProgress.processed := BulkUploadProgress.processed p;
                      BulkUploadProgress.successes := BulkUploadProgress.successes p + 1;
                      BulkUploadProgress.failures := BulkUploadProgress.failures p |}
  | None => None
  end.

Definition record_failure (file : File) (err : Thrown)
    (prev : option BulkUploadProgress.t) : option BulkUploadProgress.t :=
  match prev with
  | Some p => Some {| BulkUploadProgress.total := BulkUploadProgress.total p;
                      BulkUploadProgress.processed := BulkUploadProgress.processed p;
                      BulkUploadProgress.successes := BulkUploadProgress.successes p;
                      BulkUploadProgress.failures :=
                        BulkUploadProgress.failures p ++
                        [ {| BulkUploadProgress.fileName := name file;
                             BulkUploadProgress.error := message_or_default err |} ] |}
  | None => None
  end.

Definition count_processed (prev : option BulkUploadProgress.t) : option BulkUploadProgress.t :=
  match prev with
  | Some p => Some {| BulkUploadProgress.total := BulkUploadProgress.total p;
                      BulkUploadProgress.processed := BulkUploadProgress.processed p + 1;
                      BulkUploadProgress.successes := BulkUploadProgress.successes p;
                      BulkUploadProgress.failures := BulkUploadProgress.failures p |}
  | None => None
  end.

(** How a run of [handleBulkUpload] ends: the loop is left, or an [await]
    never resumes and the state stays what it was at that point. *)
Inductive Run :=
| Completed (st : MainAppState)
| Suspended (st : MainAppState).

Definition state_of (r : Run) : MainAppState :=
  match r with
  | Completed st => st
  | Suspended st => st
  end.

(** Modelled from the spec: the Estimator. [services/carbonCalculator] and
    [services/ecosystemServiceCalculator] are not among the sources; section
    4.1 of the specification describes them as functions of their arguments
    with no side effects and no failure mode, and gives no formula. The
    program is modelled over any such pair of functions. *)
Class Estimator := {
  calculateCarbonMetrics : number -> number -> TreeCondition -> CarbonMetrics;
  calculateEcosystemServices :
    number -> ProximityToBuilding -> TreeCondition -> EcosystemServices;
}.

(** [new Date(date).toISOString()] for a [date] written
    [YYYY-MM-DDTHH:mm:ssZ], as the dates of the seed dataset are: the same
    instant, written with its milliseconds. *)
Definition Date_toISOString (date : string) : string :=
  substring 0 19 date ++ ".000Z".

Section Inventory.
Context `{Estimator}.

(** *** constants.ts *)

Definition createTree (id : number) (species : string) (dbh height : number)
    (condition : TreeCondition) (proximityToBuilding : ProximityToBuilding)
    (notes photoSeed : string) (latitude longitude : number) (date : string) : TreeData :=
  let carbon := calculateCarbonMetrics dbh height condition in
  let ecosystemServices := calculateEcosystemServices dbh proximityToBuilding condition in
  {| id := id; species := species; dbh := dbh; height := height;
     condition := condition; proximityToBuilding := proximityToBuilding;
     notes := notes;
     photo := "https://picsum.photos/seed/" ++ photoSeed ++ "/400/300";
     latitude := latitude; longitude := longitude;
     inventoryDate := Date_toISOString date;
     carbon := carbon; ecosystemServices := ecosystemServices |}.

Definition initialTrees : list TreeData :=
  [ createTree 1 "Jati" 60 25 HEALTHY Near
      "Pohon jati tua yang megah di taman utama, memberikan keteduhan yang luar biasa."
      "oak" 34.0522 (-118.2437) "2023-10-26T10:00:00Z";
    createTree 2 "Pinus" 45 30 HEALTHY Far
      "Pohon pinus tinggi di dekat sungai."
      "pine" 34.055 (-118.245) "2023-10-26T11:30:00Z";
    createTree 3 "Mapel" 50 22 DAMAGED Near
      "Cabang patah akibat badai baru-baru ini. Memberikan keteduhan pada bangku di dekatnya."
      "maple" 34.051 (-118.24) "2023-10-27T09:00:00Z" ]%float.

(** *** The initial value of [trees] *)

(** The body of the [try] block: [Some] is a [return] from inside it,
    [None] is running off its end. *)
Definition readSavedTrees : Eff (Storage.t JSON.text) (option Loaded) :=
  (let* savedTreesJSON := Storage.getItem "treeInventoryData" in
   match savedTreesJSON with
   | Some text =>
       if JSON.truthy text then
         match JSON.parse text with
         | Normal savedTrees =>
             match savedTrees with
             | JSON.Array elements => ret (Some (as_TreeData_array elements))
             | _ => ret None
             end
         | Throw e => throw e
         end
       else ret None
   | None => ret None
   end)%eff.

Definition loadTrees : Eff (Storage.t JSON.text) Loaded :=
  (let* returned :=
     try_catch readSavedTrees
       (fun e => let* _ := Storage.removeItem "treeInventoryData" in ret None) in
   match returned with
   | Some saved => ret saved
   | None => ret (Records initialTrees)
   end)%eff.

(** *** The handlers *)

(** The [newTree] of [handleAddTree]; [now] is [Date.now()]. *)
Definition handleAddTree_newTree (now : number) (newTreeData : NewTreeData.t) : TreeData :=
  let carbonMetrics :=
    calculateCarbonMetrics (NewTreeData.dbh newTreeData) (NewTreeData.height newTreeData)
      (NewTreeData.condition newTreeData) in
  let ecosystemServices :=
    calculateEcosystemServices (NewTreeData.dbh newTreeData)
      (NewTreeData.proximityToBuilding newTreeData) (NewTreeData.condition newTreeData) in
  {| species := NewTreeData.species newTreeData;
     dbh := NewTreeData.dbh newTreeData;
     height := NewTreeData.height newTreeData;
     condition := NewTreeData.condition newTreeData;
     proximityToBuilding := NewTreeData.proximityToBuilding newTreeData;
     notes := NewTreeData.notes newTreeData;
     photo := NewTreeData.photo newTreeData;
     latitude := NewTreeData.latitude newTreeData;
     longitude := NewTreeData.longitude newTreeData;
     inventoryDate := NewTreeData.inventoryDate newTreeData;
     id := now;
     carbon := carbonMetrics;
     ecosystemServices := ecosystemServices |}.

Definition handleAddTree (now : number) (newTreeData : NewTreeData.t)
    (st : MainAppState) : MainAppState :=
  let newTree := handleAddTree_newTree now newTreeData in
  setView view_dashboard (setTrees (fun prevTrees => newTree :: prevTrees) st).

(** The [try] block of one iteration of [handleBulkUpload], up to its
    [newTree]. *)
Definition handleBulkUpload_newTree (w : World) (file : File) : Promise TreeData :=
  (let* compressedBase64 := await compressImage w file 0.7%float in
   let* analysisResult := await analyzeTreeImage w (split_comma_1 compressedBase64) "" in
   match analysisResult with
   | None => Rejected (Error "AI tidak dapat mengidentifikasi pohon.")
   | Some analysisResult =>
       if negb (truthy_string (TreeAnalysisResult.species analysisResult))
          || String.eqb (TreeAnalysisResult.species analysisResult) "Tidak Diketahui"
       then Rejected (Error "AI tidak dapat mengidentifikasi pohon.")
       else if negb (truthy_number (TreeAnalysisResult.estimatedDbh analysisResult))
               || negb (truthy_number (TreeAnalysisResult.estimatedHeight analysisResult))
       then Rejected (Error "AI tidak dapat mengestimasi dimensi.")
       else
         let* coords := await
           (if negb (truthy_number (TreeAnalysisResult.latitude analysisResult))
               || negb (truthy_number (TreeAnalysisResult.longitude analysisResult))
            then
              match getCurrentPosition w with
              | Resolved position => Resolved position
              | Rejected geoError =>
                  Rejected (Error "AI tidak menemukan GPS & akses lokasi ditolak.")
              | Pending => Pending
              end
            else Resolved (TreeAnalysisResult.latitude analysisResult,
                           TreeAnalysisResult.longitude analysisResult)) in
         let treeData :=
           {| NewTreeData.species := TreeAnalysisResult.species analysisResult;
              NewTreeData.dbh := TreeAnalysisResult.estimatedDbh analysisResult;
              NewTreeData.height := TreeAnalysisResult.estimatedHeight analysisResult;
              NewTreeData.condition := TreeAnalysisResult.condition analysisResult;
              NewTreeData.proximityToBuilding := None_;
              NewTreeData.notes := "Ditambahkan melalui unggahan massal.";
              NewTreeData.photo := compressedBase64;
              NewTreeData.latitude := coords.1;
              NewTreeData.longitude := coords.2;
              NewTreeData.inventoryDate := Date_toISOString_now w |} in
         let carbonMetrics :=
           calculateCarbonMetrics (NewTreeData.dbh treeData) (NewTreeData.height treeData)
             (NewTreeData.condition treeData) in
         let ecosystemServices :=
           calculateEcosystemServices (NewTreeData.dbh treeData)
             (NewTreeData.proximityToBuilding treeData) (NewTreeData.condition treeData) in
         Resolved
           {| species := NewTreeData.species treeData;
              dbh := NewTreeData.dbh treeData;
              height := NewTreeData.height treeData;
              condition := NewTreeData.condition treeData;
              proximityToBuilding := NewTreeData.proximityToBuilding treeData;
              notes := NewTreeData.notes treeData;
              photo := NewTreeData.photo treeData;
              latitude := NewTreeData.latitude treeData;
              longitude := NewTreeData.longitude treeData;
              inventoryDate := NewTreeData.inventoryDate treeData;
              id := (Date_now w + Math_random w)%float;
              carbon := carbonMetrics;
              ecosystemServices := ecosystemServices |}
   end)%eff.

(** The [for] loop: each file comes with what the world answers while
    it is processed. When the [try] block is fulfilled the record is
    prepended and counted; when it throws, [catch] records the failure;
    [finally] counts the file in both cases. When an [await] of the block
    never resumes, nothing after it runs. *)
Fixpoint handleBulkUpload_loop (files : list (File * World)) (st : MainAppState) : Run :=
  match files with
  | [] => Completed st
  | (file, w) :: rest =>
      match handleBulkUpload_newTree w file with
      | Resolved newTree =>
          handleBulkUpload_loop rest
            (setBulkUploadProgress count_processed
               (setBulkUploadProgress count_success
                  (setTrees (fun prevTrees => newTree :: prevTrees) st)))
      | Rejected err =>
          handleBulkUpload_loop rest
            (setBulkUploadProgress count_processed
               (setBulkUploadProgress (record_failure file err) st))
      | Pending => Suspended st
      end
  end.

Definition handleBulkUpload (files : list (File * World)) (st : MainAppState) : Run :=
  handleBulkUpload_loop files
    (setBulkUploadProgress
       (fun _ => Some {| BulkUploadProgress.total := length files;
                         BulkUploadProgress.processed := 0;
                         BulkUploadProgress.successes := 0;
                         BulkUploadProgress.failures := [] |})
       (setIsBulkUploading true st)).

(** The [finalTree] of [handleUpdateTree]. *)
Definition handleUpdateTree_finalTree (updatedTree : TreeData) : TreeData :=
  let carbonMetrics :=
    calculateCarbonMetrics (dbh updatedTree) (height updatedTree) (condition updatedTree) in
  let ecosystemServices :=
    calculateEcosystemServices (dbh updatedTree) (proximityToBuilding updatedTree)
      (condition updatedTree) in
  {| id := id updatedTree; species := species updatedTree; dbh := dbh updatedTree;
     height := height updatedTree; condition := condition updatedTree;
     proximityToBuilding := proximityToBuilding updatedTree;
     notes := notes updatedTree; photo := photo updatedTree;
     latitude := latitude updatedTree; longitude := longitude updatedTree;
     inventoryDate := inventoryDate updatedTree;
     carbon := carbonMetrics;
     ecosystemServices := ecosystemServices |}.

Definition handleUpdateTree (updatedTree : TreeData) (st : MainAppState) : MainAppState :=
  let finalTree := handleUpdateTree_finalTree updatedTree in
  setEditingTree None
    (setTrees
       (fun prevTrees =>
          (fun t => if strict_eq (id t) (id finalTree) then finalTree else t) <$> prevTrees)
       st).

Definition handleStartEdit (tree : TreeData) (st : MainAppState) : MainAppState :=
  setEditingTree (Some tree) st.

Definition handleCancelEdit (st : MainAppState) : MainAppState :=
  setEditingTree None st.

End Inventory.

(** ** Notions used by the statements *)

(** The numbers [JSON.stringify] writes and [JSON.parse] reads back as they
    are: the finite ones, negative zero excepted. *)
Definition exact_in_json (x : number) : bool :=
  match classify x with
  | NaN | PInf | NInf | NZero => false
  | _ => true
  end.

Definition CarbonMetrics_exact (c : CarbonMetrics) : bool :=
  exact_in_json (biomass c) && exact_in_json (carbonStored c)
  && exact_in_json (co2Sequestrated c).

Definition EcosystemServices_exact (e : EcosystemServices) : bool :=
  exact_in_json (stormwaterInterceptedLiters e)
  && exact_in_json (airPollutionRemovedGrams e)
  && exact_in_json (energySavingsIDR e)
  && exact_in_json (annualMonetaryValue.total (annualMonetaryValue e))
  && exact_in_json (annualMonetaryValue.carbon (annualMonetaryValue e))
  && exact_in_json (annualMonetaryValue.stormwater (annualMonetaryValue e))
  && exact_in_json (annualMonetaryValue.airQuality (annualMonetaryValue e))
  && exact_in_json (annualMonetaryValue.energy (annualMonetaryValue e)).

(** Every number of the record is one that JSON keeps. *)
Definition TreeData_exact (t : TreeData) : bool :=
  exact_in_json (id t) && exact_in_json (dbh t) && exact_in_json (height t)
  && exact_in_json (latitude t) && exact_in_json (longitude t)
  && CarbonMetrics_exact (carbon t) && EcosystemServices_exact (ecosystemServices t).

(** The stored item is absent, is not JSON, or is JSON but not an array. *)
Definition unusable (stored : option JSON.text) : bool :=
  match stored with
  | None => true
  | Some (JSON.Malformed _) => true
  | Some (JSON.Document v) => negb (JSON.isArray v)
  end.

(** A storage area that can be read and written. *)
Definition working {V} (s : Storage.t V) : Prop :=
  Storage.blocked s = false /\ Storage.quotaExceeded s = false.

(** The item under the inventory key is the text of the current collection. *)
Definition persisted (st : MainAppState) : Prop :=
  Storage.items (localStorage st) !! "treeInventoryData"
  = Some (JSON.stringify (json_of_trees (trees st))).

(** The session flag is set, in the page and in session storage. *)
Definition logged_in (st : AppState) : Prop :=
  isAuthenticated st = true
  /\ Storage.items (sessionStorage st) !! "isLoggedIn" = Some "true".

(** The four measurements the derived fields are computed from. *)
Definition same_measurements (a b : TreeData) : Prop :=
  dbh a = dbh b /\ height a = height b /\ condition a = condition b
  /\ proximityToBuilding a = proximityToBuilding b.

(** The fields of a record other than the two derived ones. *)
Definition same_source_fields (a b : TreeData) : Prop :=
  id a = id b /\ species a = species b /\ notes a = notes b /\ photo a = photo b
  /\ latitude a = latitude b /\ longitude a = longitude b
  /\ inventoryDate a = inventoryDate b /\ same_measurements a b.

Section Derived.
Context `{Estimator}.

(** The derived fields of a record are the Estimator's output on the
    record's own measurements. *)
Definition derived (t : TreeData) : Prop :=
  carbon t = calculateCarbonMetrics (dbh t) (height t) (condition t)
  /\ ecosystemServices t =
       calculateEcosystemServices (dbh t) (proximityToBuilding t) (condition t).

(** The records one run of the bulk loop places in the store, in the
    order of their files, up to the file at which the run is suspended. *)
Fixpoint bulk_records (files : list (File * World)) : list TreeData :=
  match files with
  | [] => []
  | (file, w) :: rest =>
      match handleBulkUpload_newTree w file with
      | Resolved newTree => newTree :: bulk_records rest
      | Rejected _ => bulk_records rest
      | Pending => []
      end
  end.

(** The [try] block of the iteration on this file settles. *)
Definition settles (fw : File * World) : Prop :=
  handleBulkUpload_newTree fw.2 fw.1 <> Pending.
End Derived.

(** ** Concrete data for the examples

    The parameters of the development are instantiated here so that the
    handlers can be run on concrete inputs. The estimator below is an
    arbitrary one: it stands for no formula of the application, and no
    statement about the program depends on it. *)
Module Sample.
Definition carbonMetrics (dbh height : number) (c : TreeCondition) : CarbonMetrics :=
  {| biomass := (dbh * height)%float; carbonStored := dbh; co2Sequestrated := height |}.

Definition ecosystemServices (dbh : number) (p : ProximityToBuilding) (c : TreeCondition)
    : EcosystemServices :=
  {| stormwaterInterceptedLiters := dbh;
     airPollutionRemovedGrams := (dbh + 1)%float;
     energySavingsIDR := match p with None_ => 1%float | _ => 2%float end;
     annualMonetaryValue :=
       {| annualMonetaryValue.total := 4; annualMonetaryValue.carbon := 1;
          annualMonetaryValue.stormwater := 1; annualMonetaryValue.airQuality := 1;
          annualMonetaryValue.energy := 1 |}%float |}.

Definition estimator : Estimator :=
  {| calculateCarbonMetrics := carbonMetrics;
     calculateEcosystemServices := ecosystemServices |}.

Definition seed : list TreeData := @initialTrees estimator.

(** A storage area that works and holds nothing. *)
Definition storage {V} : Storage.t V :=
  {| Storage.blocked := false; Storage.quotaExceeded := false; Storage.items := ∅ |}.

(** A storage area the browser denies access to. *)
Definition blocked_storage {V} : Storage.t V :=
  {| Storage.blocked := true; Storage.quotaExceeded := false; Storage.items := ∅ |}.

(** [MainApp] showing the seed dataset. *)
Definition mainApp : MainAppState :=
  {| view := view_form; trees := seed; editingTree := None; isBulkUploading := false;
     bulkUploadProgress := None; localStorage := storage |}.

(** A form entry whose latitude field is not a number. *)
Definition entry (lat : number) : NewTreeData.t :=
  {| NewTreeData.species := "Mahoni"; NewTreeData.dbh := 35; NewTreeData.height := 18;
     NewTreeData.condition := HEALTHY; NewTreeData.proximityToBuilding := Far;
     NewTreeData.notes := "Di tepi jalan."; NewTreeData.photo := "data:image/jpeg;base64,AAAA";
     NewTreeData.latitude := lat; NewTreeData.longitude := 106.8;
     NewTreeData.inventoryDate := "2024-05-01T08:00:00.000Z" |}%float.

Definition analysis : TreeAnalysisResult.t :=
  {| TreeAnalysisResult.species := "Jati"; TreeAnalysisResult.latitude := (-6.2);
     TreeAnalysisResult.longitude := 106.8; TreeAnalysisResult.condition := HEALTHY;
     TreeAnalysisResult.estimatedDbh := 40; TreeAnalysisResult.estimatedHeight := 15 |}%float.

(** What the world answers for a photograph: the browser decodes it (or
    not, when [decodable] is false), the analysis service answers with
    [answer]. *)
Definition world (decodable : bool) (answer : Promise (option TreeAnalysisResult.t)) : World :=
  {| FileReader_readAsDataURL := fun _ => Normal "data:application/octet-stream;base64,AAAA";
     Image_onload := fun _ => if decodable then Some (1600, 1200)%float else None;
     canvas_getContext := true;
     canvas_toDataURL := fun _ _ _ _ => "data:image/jpeg;base64,BBBB";
     analyzeTreeImage := fun _ _ => answer;
     getCurrentPosition := Rejected {| message := None |};
     Date_now := 1714550400000%float;
     Math_random := 0.25%float;
     Date_toISOString_now := "2024-05-01T08:00:00.000Z" |}.

Definition photo_ok : File * World :=
  ({| name := "pohon-1.jpg" |}, world true (Resolved (Some analysis))).

Definition photo_unknown : File * World :=
  ({| name := "pohon-2.jpg" |}, world true (Rejected (Error "503"))).

(** A file that is read but is not an image the browser can decode. *)
Definition not_an_image : File * World :=
  ({| name := "catatan.txt" |}, world false (Resolved (Some analysis))).
End Sample.

(** ** The rest of App.tsx and MainApp.tsx *)

(** What [App] renders: a blank screen while the session check has not
    run, the login page while nobody is authenticated, [MainApp] otherwise. *)
Inductive Screen := BlankScreen | LoginPage | MainAppScreen.

Definition App_render (st : AppState) : Screen :=
  if isLoading st then BlankScreen
  else if negb (isAuthenticated st) then LoginPage
  else MainAppScreen.

(** A login attempt with the admin password. *)
Definition is_admin_Login (ev : AppEvent) : bool :=
  match ev with
  | Login password => String.eqb password ADMIN_PASSWORD
  | _ => false
  end.

(** [BulkUploadModal]: [isFinished], and what [MainApp] shows of the modal:
    nothing, the modal without its close button, or the modal with it. *)
Definition BulkUploadModal_isFinished (progress : BulkUploadProgress.t) : bool :=
  Nat.eqb (BulkUploadProgress.processed progress) (BulkUploadProgress.total progress).

Inductive Modal := NoModal | ModalRunning | ModalWithClose.

Definition BulkUploadModal (st : MainAppState) : Modal :=
  if isBulkUploading st then
    match bulkUploadProgress st with
    | None => NoModal
    | Some progress =>
        if BulkUploadModal_isFinished progress then ModalWithClose else ModalRunning
    end
  else NoModal.

(** The pieces of React state of [MainApp] that [handleImageAnalysis] and
    [handleGenerateReport] write. *)
Module Ui.
Record t := {
  isAnalyzing : bool;
  isGeneratingReport : bool;
  error : option string;
}.
End Ui.

(** [handleImageAnalysis]: the promise it returns and the state it leaves.
    When the analysis never settles, neither [catch] nor [finally] runs. *)
Definition handleImageAnalysis (w : World) (base64Image notes : string) (st : Ui.t)
    : Promise (option TreeAnalysisResult.t) * Ui.t :=
  let st1 := {| Ui.isAnalyzing := true; Ui.isGeneratingReport := Ui.isGeneratingReport st;
                Ui.error := None |} in
  match analyzeTreeImage w (Some base64Image) notes with
  | Resolved result =>
      (Resolved result,
       {| Ui.isAnalyzing := false; Ui.isGeneratingReport := Ui.isGeneratingReport st1;
          Ui.error := Ui.error st1 |})
  | Rejected err =>
      (Resolved None,
       {| Ui.isAnalyzing := false; Ui.isGeneratingReport := Ui.isGeneratingReport st1;
          Ui.error :=
            Some "Gagal menganalisis gambar dengan AI. Harap periksa kunci API Anda dan coba lagi." |})
  | Pending => (Pending, st1)
  end.

(** [handleGenerateReport]; [report] is what becomes of the promise of
    [generatePdfReport(trees, ...)]. *)
Definition handleGenerateReport (report : Promise unit) (st : Ui.t) : Promise unit * Ui.t :=
  let st1 := {| Ui.isAnalyzing := Ui.isAnalyzing st; Ui.isGeneratingReport := true;
                Ui.error := None |} in
  match report with
  | Resolved _ =>
      (Resolved tt,
       {| Ui.isAnalyzing := Ui.isAnalyzing st1; Ui.isGeneratingReport := false;
          Ui.error := Ui.error st1 |})
  | Rejected e =>
      (Resolved tt,
       {| Ui.isAnalyzing := Ui.isAnalyzing st1; Ui.isGeneratingReport := false;
          Ui.error := Some "Tidak dapat membuat laporan PDF." |})
  | Pending => (Pending, st1)
  end.

(** No comma among the characters of a string. *)
Fixpoint no_comma (s : string) : bool :=
  match s with
  | EmptyString => true
  | String c rest => negb (Ascii.eqb c ","%char) && no_comma rest
  end.

Section Operations.
Context `{Estimator}.

(** One iteration of the loop of [handleBulkUpload], from the end of its
    last [await] on: the state it leaves, [None] when an [await] of the
    iteration never resumes. *)
Definition handleBulkUpload_iteration (file : File) (w : World) (st : MainAppState)
    : option MainAppState :=
  match handleBulkUpload_newTree w file with
  | Resolved newTree =>
      Some (setBulkUploadProgress count_processed
              (setBulkUploadProgress count_success
                 (setTrees (fun prevTrees => newTree :: prevTrees) st)))
  | Rejected err =>
      Some (setBulkUploadProgress count_processed
              (setBulkUploadProgress (record_failure file err) st))
  | Pending => None
  end.

(** The failures one run of the bulk loop records, in the order of their
    files, up to the file at which the run is suspended. *)
Fixpoint bulk_failures (files : list (File * World)) : list BulkUploadProgress.failure :=
  match files with
  | [] => []
  | (file, w) :: rest =>
      match handleBulkUpload_newTree w file with
      | Resolved _ => bulk_failures rest
      | Rejected err =>
          {| BulkUploadProgress.fileName := name file;
             BulkUploadProgress.error := message_or_default err |} :: bulk_failures rest
      | Pending => []
      end
  end.

(** What the user and the pending callbacks do to [MainApp]: a tree is
    added from the form, an iteration of a running bulk import resumes after
    its last [await], the edit dialog is opened, cancelled or saved. The
    iterations of a bulk import are events of their own, so that a run of
    events may interleave them with the other handlers. *)
Inductive MainAppEvent :=
| AddTree (now : number) (newTreeData : NewTreeData.t)
| BulkFile (file : File) (w : World)
| StartEdit (tree : TreeData)
| CancelEdit
| SaveEdit (updatedTree : TreeData).

Definition MainApp_step (st : MainAppState) (ev : MainAppEvent) : MainAppState :=
  match ev with
  | AddTree now newTreeData => handleAddTree now newTreeData st
  | BulkFile file w =>
      match handleBulkUpload_iteration file w st with
      | Some st' => st'
      | None => st
      end
  | StartEdit tree => handleStartEdit tree st
  | CancelEdit => handleCancelEdit st
  | SaveEdit updatedTree => handleUpdateTree updatedTree st
  end.

Definition MainApp_run (st : MainAppState) (evs : list MainAppEvent) : MainAppState :=
  foldl MainApp_step st evs.
End Operations.

(** * Properties *)

(** ** JSON documents read back *)

Local Arguments exact_in_json : simpl never.
Local Arguments json_of_number : simpl never.
Local Arguments strict_eq : simpl never.

Lemma json_of_number_exact (x : number) :
  exact_in_json x = true -> json_of_number x = JSON.Number x.
Proof.
  unfold exact_in_json, json_of_number.
  destruct (classify x); intros E; try discriminate E; reflexivity.
Qed.

Lemma TreeCondition_of_json_value (c : TreeCondition) :
  TreeCondition_of_json (JSON.String_ (TreeCondition_value c)) = Some c.
Proof. destruct c; reflexivity. Qed.

Lemma ProximityToBuilding_of_json_value (p : ProximityToBuilding) :
  ProximityToBuilding_of_json (JSON.String_ (ProximityToBuilding_value p)) = Some p.
Proof. destruct p; reflexivity. Qed.

Lemma CarbonMetrics_of_json_of (c : CarbonMetrics) :
  CarbonMetrics_exact c = true ->
  CarbonMetrics_of_json (json_of_CarbonMetrics c) = Some c.
Proof.
  unfold CarbonMetrics_exact. rewrite !andb_true_iff. intros [[Hb Hc] Hs].
  unfold json_of_CarbonMetrics.
  rewrite (json_of_number_exact _ Hb), (json_of_number_exact _ Hc),
    (json_of_number_exact _ Hs).
  destruct c; reflexivity.
Qed.

Lemma annualMonetaryValue_of_json_of (a : annualMonetaryValue.t) :
  exact_in_json (annualMonetaryValue.total a) = true ->
  exact_in_json (annualMonetaryValue.carbon a) = true ->
  exact_in_json (annualMonetaryValue.stormwater a) = true ->
  exact_in_json (annualMonetaryValue.airQuality a) = true ->
  exact_in_json (annualMonetaryValue.energy a) = true ->
  annualMonetaryValue_of_json (json_of_annualMonetaryValue a) = Some a.
Proof.
  intros H1 H2 H3 H4 H5. unfold json_of_annualMonetaryValue.
  rewrite (json_of_number_exact _ H1), (json_of_number_exact _ H2),
    (json_of_number_exact _ H3), (json_of_number_exact _ H4),
    (json_of_number_exact _ H5).
  destruct a; reflexivity.
Qed.

Lemma EcosystemServices_of_json_of (e : EcosystemServices) :
  EcosystemServices_exact e = true ->
  EcosystemServices_of_json (json_of_EcosystemServices e) = Some e.
Proof.
  unfold EcosystemServices_exact. rewrite !andb_true_iff.
  intros [[[[[[[H1 H2] H3] H4] H5] H6] H7] H8].
  pose proof (annualMonetaryValue_of_json_of _ H4 H5 H6 H7 H8) as Ea.
  unfold json_of_EcosystemServices.
  rewrite (json_of_number_exact _ H1), (json_of_number_exact _ H2),
    (json_of_number_exact _ H3).
  unfold EcosystemServices_of_json, get. cbn [JSON.member String.eqb Ascii.eqb Bool.eqb].
  cbn [mbind option_bind number_of_json]. rewrite Ea.
  destruct e; reflexivity.
Qed.

Lemma TreeData_of_json_of (t : TreeData) :
  TreeData_exact t = true -> TreeData_of_json (json_of_TreeData t) = Some t.
Proof.
  unfold TreeData_exact. rewrite !andb_true_iff.
  intros [[[[[[H1 H2] H3] H4] H5] Hc] He].
  pose proof (CarbonMetrics_of_json_of _ Hc) as Ec.
  pose proof (EcosystemServices_of_json_of _ He) as Ee.
  unfold json_of_TreeData.
  rewrite (json_of_number_exact _ H1), (json_of_number_exact _ H2),
    (json_of_number_exact _ H3), (json_of_number_exact _ H4),
    (json_of_number_exact _ H5).
  unfold TreeData_of_json, get. cbn [JSON.member String.eqb Ascii.eqb Bool.eqb].
  cbn [mbind option_bind number_of_json string_of_json].
  rewrite TreeCondition_of_json_value, ProximityToBuilding_of_json_value, Ec, Ee.
  destruct t; reflexivity.
Qed.

Lemma trees_of_json_of (trees : list TreeData) :
  Forall (fun t => TreeData_exact t = true) trees ->
  mapM TreeData_of_json (json_of_TreeData <$> trees) = Some trees.
Proof.
  intros Hall. apply mapM_fmap_Forall_Some.
  eapply Forall_impl; [exact Hall|]. intros t Ht. exact (TreeData_of_json_of t Ht).
Qed.

(** ** Persisting and loading *)

Lemma persistTrees_working (trees : list TreeData) (ls : Storage.t JSON.text) :
  working ls ->
  persistTrees trees ls =
    (Normal tt,
     {| Storage.blocked := false; Storage.quotaExceeded := false;
        Storage.items :=
          <["treeInventoryData" := JSON.stringify (json_of_trees trees)]> (Storage.items ls) |}).
Proof.
  intros [Hb Hq]. unfold persistTrees, try_catch, Storage.setItem.
  rewrite Hb, Hq. reflexivity.
Qed.

(** The effect never throws, whatever the storage does. *)
Lemma persistTrees_normal (trees : list TreeData) (ls : Storage.t JSON.text) :
  (persistTrees trees ls).1 = Normal tt.
Proof.
  unfold persistTrees, try_catch, Storage.setItem, ret.
  destruct (Storage.blocked ls); [reflexivity|].
  destruct (Storage.quotaExceeded ls); reflexivity.
Qed.

(** A write that does not go through leaves the storage as it was. *)
Lemma persistTrees_not_working (trees : list TreeData) (ls : Storage.t JSON.text) :
  Storage.blocked ls = true \/ Storage.quotaExceeded ls = true ->
  (persistTrees trees ls).2 = ls.
Proof.
  unfold persistTrees, try_catch, Storage.setItem, ret.
  destruct (Storage.blocked ls); [reflexivity|].
  destruct (Storage.quotaExceeded ls); [reflexivity|].
  intros [E|E]; discriminate E.
Qed.

Section Loading.
Context `{Estimator}.

(** What the initializer does with a storage that can be read, by what is
    stored under the key. *)
Lemma loadTrees_readable (ls : Storage.t JSON.text) :
  Storage.blocked ls = false ->
  loadTrees ls =
    match Storage.items ls !! "treeInventoryData" with
    | Some (JSON.Document (JSON.Array elements)) => (Normal (as_TreeData_array elements), ls)
    | Some (JSON.Document _) => (Normal (Records initialTrees), ls)
    | Some (JSON.Malformed EmptyString) => (Normal (Records initialTrees), ls)
    | Some (JSON.Malformed _) =>
        (Normal (Records initialTrees),
         {| Storage.blocked := false; Storage.quotaExceeded := Storage.quotaExceeded ls;
            Storage.items := delete "treeInventoryData" (Storage.items ls) |})
    | None => (Normal (Records initialTrees), ls)
    end.
Proof.
  intros Hb.
  unfold loadTrees, readSavedTrees, bind, try_catch, Storage.getItem, Storage.removeItem,
    ret, throw.
  rewrite Hb.
  destruct (Storage.items ls !! "treeInventoryData") as [[v|raw]|]; simpl.
  - destruct v; reflexivity.
  - destruct raw; simpl; [reflexivity|]. rewrite Hb. reflexivity.
  - reflexivity.
Qed.

(** When the browser denies access to the storage, the read throws, the
    handler's own call on the storage throws again, and the initializer
    throws. *)
Lemma loadTrees_blocked (ls : Storage.t JSON.text) :
  Storage.blocked ls = true -> loadTrees ls = (Throw Storage.SecurityError, ls).
Proof.
  intros Hb.
  unfold loadTrees, readSavedTrees, bind, try_catch, Storage.getItem, Storage.removeItem.
  rewrite Hb; simpl. rewrite Hb. reflexivity.
Qed.
End Loading.

(** C6 (as amended). Round trip: on a storage that accepts the write, a
    collection whose numbers are all finite and not negative zero is read
    back, by the initializer of [trees], as the same records in the same
    order, and the read leaves the storage as the write left it. *)
Theorem persist_then_load `{Estimator} (trees : list TreeData) (ls : Storage.t JSON.text) :
  working ls ->
  Forall (fun t => TreeData_exact t = true) trees ->
  loadTrees (persistTrees trees ls).2 = (Normal (Records trees), (persistTrees trees ls).2).
Proof.
  intros Hw Hexact.
  rewrite (persistTrees_working trees ls Hw). cbn [snd].
  rewrite loadTrees_readable by reflexivity.
  cbn [Storage.items]. rewrite lookup_insert_eq.
  unfold JSON.stringify, json_of_trees, as_TreeData_array.
  rewrite (trees_of_json_of trees Hexact). reflexivity.
Qed.

(** The seed dataset, persisted on an empty working storage, is read back. *)
Lemma persist_then_load_witness :
  @loadTrees Sample.estimator (persistTrees Sample.seed Sample.storage).2
  = (Normal (Records Sample.seed), (persistTrees Sample.seed Sample.storage).2).
Proof.
  apply (@persist_then_load Sample.estimator Sample.seed Sample.storage).
  - split; reflexivity.
  - repeat constructor.
Defined.

(** C6 (as stated) fails in two ways. A record with a number that JSON
    cannot write (here the latitude of a form entry is [NaN]) is written
    with [null] in its place, and what is read back is not that record. And
    when the storage refuses the write, the effect swallows the error and
    the next load returns what was stored before. *)
Lemma persist_then_load_not_always :
  let t := @handleAddTree_newTree Sample.estimator 1714550400000%float (Sample.entry nan) in
  let full : Storage.t JSON.text :=
    {| Storage.blocked := false; Storage.quotaExceeded := true;
       Storage.items :=
         {[ "treeInventoryData" := JSON.stringify (json_of_trees Sample.seed) ]} |} in
  (@loadTrees Sample.estimator (persistTrees [t] Sample.storage).2).1 <> Normal (Records [t])
  /\ (@loadTrees Sample.estimator
        (persistTrees (@handleAddTree_newTree Sample.estimator 1714550400000%float
                         (Sample.entry 1%float) :: Sample.seed) full).2).1
     = Normal (Records Sample.seed).
Proof.
  split.
  - vm_compute. intros E. discriminate E.
  - vm_compute. reflexivity.
Qed.

(** On a storage that can be read, load tolerates absent or malformed
    stored data: when the read of the item under the inventory key returns
    nothing, a text that is not JSON (the empty string included), or a JSON
    text that is not an array, the initializer returns normally, and what
    it returns is the seed dataset; an item that failed to parse is removed
    from the storage; and the effect that follows writes the seed dataset
    under the key when the storage accepts the write. *)
Theorem load_falls_back_to_seed `{Estimator} (ls : Storage.t JSON.text)
    (stored : option JSON.text) :
  Storage.getItem "treeInventoryData" ls = (Normal stored, ls) ->
  unusable stored = true ->
  exists ls',
    loadTrees ls = (Normal (Records initialTrees), ls')
    /\ (forall raw, stored = Some (JSON.Malformed raw) -> raw <> EmptyString ->
        Storage.items ls' !! "treeInventoryData" = None)
    /\ (Storage.quotaExceeded ls = false ->
        Storage.items (persistTrees initialTrees ls').2 !! "treeInventoryData"
        = Some (JSON.stringify (json_of_trees initialTrees))).
Proof.
  intros Hread Hun.
  assert (Hb : Storage.blocked ls = false).
  { unfold Storage.getItem in Hread. destruct (Storage.blocked ls); [discriminate Hread|].
    reflexivity. }
  assert (E : Storage.items ls !! "treeInventoryData" = stored).
  { unfold Storage.getItem in Hread. rewrite Hb in Hread. injection Hread as ->.
    reflexivity. }
  assert (Hwrite : forall ls' : Storage.t JSON.text,
             Storage.blocked ls' = false -> Storage.quotaExceeded ls' = false ->
             Storage.items (persistTrees initialTrees ls').2 !! "treeInventoryData"
             = Some (JSON.stringify (json_of_trees initialTrees))).
  { intros ls' Hb' Hq'. rewrite persistTrees_working by (split; assumption).
    cbn [snd Storage.items]. apply lookup_insert_eq. }
  rewrite (loadTrees_readable ls Hb), E.
  destruct stored as [[v|raw]|].
  - destruct v; try discriminate Hun;
      (eexists; split; [reflexivity|]; split;
       [intros raw Hraw; discriminate Hraw | intros Hq; apply Hwrite; assumption]).
  - destruct raw as [|c raw].
    + eexists; split; [reflexivity|]. split.
      * intros raw Hraw Hne. inversion Hraw; subst. contradiction.
      * intros Hq. apply Hwrite; assumption.
    + eexists; split; [reflexivity|]. split.
      * intros _ _ _. cbn [Storage.items]. apply lookup_delete_eq.
      * intros Hq. apply Hwrite; [reflexivity | assumption].
  - eexists; split; [reflexivity|]. split.
    + intros raw Hraw. discriminate Hraw.
    + intros Hq. apply Hwrite; assumption.
Qed.

(** A storage whose inventory item is not JSON. *)
Lemma load_falls_back_to_seed_witness :
  let ls : Storage.t JSON.text :=
    {| Storage.blocked := false; Storage.quotaExceeded := false;
       Storage.items := {[ "treeInventoryData" := JSON.Malformed "[{oops" ]} |} in
  exists ls',
    @loadTrees Sample.estimator ls = (Normal (Records Sample.seed), ls')
    /\ (forall raw, Some (JSON.Malformed "[{oops") = Some (JSON.Malformed raw) ->
        raw <> EmptyString -> Storage.items ls' !! "treeInventoryData" = None)
    /\ (Storage.quotaExceeded ls = false ->
        Storage.items (persistTrees Sample.seed ls').2 !! "treeInventoryData"
        = Some (JSON.stringify (json_of_trees Sample.seed))).
Proof.
  apply (@load_falls_back_to_seed Sample.estimator); vm_compute; reflexivity.
Defined.

(** C7, on a local storage the browser denies access to. Nothing is
    stored under the inventory key. [getItem] throws; the [catch] block logs
    the error and calls [removeItem] on the same storage, outside any
    [try]; that call throws too, and the initializer throws instead of
    returning the seed dataset. *)
Theorem load_throws_on_denied_storage :
  Storage.items (@Sample.blocked_storage JSON.text) !! "treeInventoryData" = None
  /\ unusable (Storage.items (@Sample.blocked_storage JSON.text) !! "treeInventoryData") = true
  /\ Storage.getItem "treeInventoryData" (@Sample.blocked_storage JSON.text)
     = (Throw Storage.SecurityError, Sample.blocked_storage)
  /\ Storage.removeItem "treeInventoryData" (@Sample.blocked_storage JSON.text)
     = (Throw Storage.SecurityError, Sample.blocked_storage)
  /\ @loadTrees Sample.estimator Sample.blocked_storage
     = (Throw Storage.SecurityError, Sample.blocked_storage).
Proof. repeat split; vm_compute; reflexivity. Qed.

(** ** The login gate *)

Lemma handleLogin_wrong (password : string) (st : AppState) :
  password <> ADMIN_PASSWORD -> handleLogin password st = (Normal false, st).
Proof.
  intros Hne. unfold handleLogin.
  apply String.eqb_neq in Hne. rewrite Hne. reflexivity.
Qed.

Lemma handleLogin_admin (st : AppState) :
  handleLogin ADMIN_PASSWORD st =
    (Normal true,
     {| isAuthenticated := true; isLoading := isLoading st;
        sessionStorage := (try_catch (Storage.setItem "isLoggedIn" "true")
                             (fun _ => ret tt) (sessionStorage st)).2 |}).
Proof.
  unfold handleLogin. rewrite String.eqb_refl.
  unfold bind, try_catch, on_sessionStorage, setIsAuthenticated, Storage.setItem, ret.
  destruct (Storage.blocked (sessionStorage st)); [reflexivity|].
  destruct (Storage.quotaExceeded (sessionStorage st)); reflexivity.
Qed.

Lemma handleLogin_admin_working (st : AppState) :
  working (sessionStorage st) ->
  working (sessionStorage (handleLogin ADMIN_PASSWORD st).2)
  /\ logged_in (handleLogin ADMIN_PASSWORD st).2.
Proof.
  intros [Hb Hq]. rewrite handleLogin_admin. unfold logged_in, working.
  cbn [snd isAuthenticated sessionStorage]. unfold try_catch, Storage.setItem.
  rewrite Hb, Hq. cbn. rewrite lookup_insert_eq. auto.
Qed.

(** Whatever is done on the page short of a logout keeps the flag set, as
    long as the session storage works. *)
Lemma App_step_logged_in (st : AppState) (ev : AppEvent) :
  is_Logout ev = false ->
  working (sessionStorage st) -> logged_in st ->
  working (sessionStorage (App_step st ev)) /\ logged_in (App_step st ev).
Proof.
  intros Hev Hw [Hauth Hitem]. destruct ev as [|password|]; [| |discriminate Hev].
  - destruct Hw as [Hb Hq]. unfold App_step, sessionCheck, App_initial, try_finally,
      try_catch, bind, on_sessionStorage, Storage.getItem, setIsAuthenticated, setIsLoading.
    cbn [sessionStorage]. rewrite Hb. cbn. rewrite Hitem.
    unfold logged_in, working; cbn. rewrite Hitem. auto.
  - unfold App_step. destruct (String.eqb_spec password ADMIN_PASSWORD) as [->|Hne].
    + apply handleLogin_admin_working; assumption.
    + rewrite handleLogin_wrong by assumption. cbn [snd]. split; [assumption|].
      split; assumption.
Qed.

Lemma App_run_logged_in (evs : list AppEvent) (st : AppState) :
  forallb (fun ev => negb (is_Logout ev)) evs = true ->
  working (sessionStorage st) -> logged_in st ->
  logged_in (App_run st evs).
Proof.
  revert st. induction evs as [|ev evs IH]; intros st Hevs Hw Hin; [exact Hin|].
  cbn [forallb] in Hevs. apply andb_true_iff in Hevs as [Hev Hevs].
  apply negb_true_iff in Hev.
  destruct (App_step_logged_in st ev Hev Hw Hin) as [Hw' Hin'].
  unfold App_run. cbn [foldl]. apply IH; assumption.
Qed.

Lemma handleLogout_clears (st : AppState) :
  isAuthenticated (handleLogout st).2 = false
  /\ (Storage.blocked (sessionStorage st) = false ->
      Storage.items (sessionStorage (handleLogout st).2) !! "isLoggedIn" = None)
  /\ isAuthenticated (App_step (handleLogout st).2 PageLoad) = false.
Proof.
  unfold App_step, handleLogout, sessionCheck, App_initial, try_finally, try_catch, bind,
    on_sessionStorage, Storage.getItem, Storage.removeItem, setIsAuthenticated, setIsLoading, ret.
  cbn [sessionStorage].
  destruct (Storage.blocked (sessionStorage st)) eqn:Hb; cbn; rewrite ?Hb; cbn.
  - split; [reflexivity|]. split; [intros E; discriminate E | reflexivity].
  - rewrite lookup_delete_eq. split; [reflexivity|]. split; reflexivity.
Qed.

(** C9 (as amended). A password other than the admin password makes
    [handleLogin] return [false] and leaves the page state and the session
    storage as they were. The admin password makes it return [true] and set
    the authenticated flag of the page; when the session storage accepts
    the write the flag is stored there too, and then whatever happens
    short of a logout (further login attempts, page reloads) leaves the
    flag set in the page and in the storage. [handleLogout] clears the flag
    of the page, removes the stored one when the storage can be reached,
    and a reload afterwards finds the page logged out. *)
Theorem login_gate (password : string) (st : AppState) :
  (password <> ADMIN_PASSWORD -> handleLogin password st = (Normal false, st))
  /\ (password = ADMIN_PASSWORD ->
      exists st',
        handleLogin password st = (Normal true, st')
        /\ isAuthenticated st' = true
        /\ (working (sessionStorage st) ->
            forall evs, forallb (fun ev => negb (is_Logout ev)) evs = true ->
                        logged_in (App_run st' evs)))
  /\ (isAuthenticated (handleLogout st).2 = false
      /\ (Storage.blocked (sessionStorage st) = false ->
          Storage.items (sessionStorage (handleLogout st).2) !! "isLoggedIn" = None)
      /\ isAuthenticated (App_step (handleLogout st).2 PageLoad) = false).
Proof.
  split; [apply handleLogin_wrong|]. split; [|apply handleLogout_clears].
  intros ->. eexists. split; [apply handleLogin_admin|]. split; [reflexivity|].
  intros Hw evs Hevs.
  destruct (handleLogin_admin_working st Hw) as [Hw' Hin].
  rewrite handleLogin_admin in Hw', Hin. cbn [snd] in Hw', Hin.
  apply App_run_logged_in; assumption.
Qed.

(** A login on a working session storage, followed by a failed attempt,
    a reload and another reload. *)
Lemma login_gate_witness :
  logged_in (App_run (handleLogin ADMIN_PASSWORD (App_initial Sample.storage)).2
               [Login "tebak"; PageLoad; PageLoad]).
Proof.
  destruct (login_gate ADMIN_PASSWORD (App_initial Sample.storage)) as [_ [Hadmin _]].
  destruct (Hadmin eq_refl) as [st' [Hlogin [_ Hstays]]].
  rewrite Hlogin. cbn [snd]. apply Hstays; [split; reflexivity | reflexivity].
Defined.

(** C9 (as stated) fails when the browser refuses the session storage: the
    login succeeds and sets the flag of the page, nothing is stored, and a
    reload finds the page logged out although no logout took place. *)
Lemma login_not_persisted_when_storage_refuses :
  let st := App_initial Sample.blocked_storage in
  (handleLogin ADMIN_PASSWORD st).1 = Normal true
  /\ isAuthenticated (handleLogin ADMIN_PASSWORD st).2 = true
  /\ Storage.items (sessionStorage (handleLogin ADMIN_PASSWORD st).2) !! "isLoggedIn" = None
  /\ isAuthenticated (App_run (handleLogin ADMIN_PASSWORD st).2 [PageLoad]) = false.
Proof. vm_compute. repeat split; reflexivity. Qed.

(** ** The inventory store *)

Lemma working_persistTrees (trees : list TreeData) (ls : Storage.t JSON.text) :
  working ls -> working (persistTrees trees ls).2.
Proof.
  intros Hw. rewrite persistTrees_working by exact Hw. split; reflexivity.
Qed.

(** Of two writes that the storage takes, the second is the one that
    stays. *)
Lemma persistTrees_twice (a b : list TreeData) (ls : Storage.t JSON.text) :
  working ls ->
  (persistTrees a (persistTrees b ls).2).2 = (persistTrees a ls).2.
Proof.
  intros Hw.
  rewrite (persistTrees_working a _ (working_persistTrees b ls Hw)).
  rewrite (persistTrees_working b ls Hw), (persistTrees_working a ls Hw).
  cbn [snd Storage.items]. rewrite insert_insert_eq. reflexivity.
Qed.

Lemma setTrees_persisted (update : list TreeData -> list TreeData) (st : MainAppState) :
  working (localStorage st) -> persisted (setTrees update st).
Proof.
  intros Hw. unfold persisted, setTrees. cbn [localStorage trees].
  rewrite persistTrees_working by assumption. cbn [snd Storage.items].
  apply lookup_insert_eq.
Qed.

Section Store.
Context `{Estimator}.

Lemma derived_handleAddTree_newTree (now : number) (newTreeData : NewTreeData.t) :
  derived (handleAddTree_newTree now newTreeData).
Proof. split; reflexivity. Qed.

Lemma derived_handleUpdateTree_finalTree (updatedTree : TreeData) :
  derived (handleUpdateTree_finalTree updatedTree).
Proof. split; reflexivity. Qed.

Lemma handleUpdateTree_finalTree_source (updatedTree : TreeData) :
  same_source_fields (handleUpdateTree_finalTree updatedTree) updatedTree.
Proof. repeat split. Qed.

Lemma derived_handleBulkUpload_newTree (w : World) (file : File) (t : TreeData) :
  handleBulkUpload_newTree w file = Resolved t -> derived t.
Proof.
  unfold handleBulkUpload_newTree, await.
  destruct (compressImage w file _) as [compressedBase64| |]; try discriminate.
  destruct (analyzeTreeImage w _ _) as [[a|]| |]; try discriminate.
  repeat match goal with
         | |- context [if ?c then _ else _] => destruct c; try discriminate
         | |- context [match getCurrentPosition w with _ => _ end] =>
             destruct (getCurrentPosition w); try discriminate
         end;
    intros E; injection E as <-; split; reflexivity.
Qed.

(** The fields of the record one iteration of the bulk loop builds that do
    not come from the analysis. *)
Lemma handleBulkUpload_newTree_fields (w : World) (file : File) (t : TreeData) :
  handleBulkUpload_newTree w file = Resolved t ->
  id t = (Date_now w + Math_random w)%float
  /\ proximityToBuilding t = None_
  /\ notes t = "Ditambahkan melalui unggahan massal."
  /\ inventoryDate t = Date_toISOString_now w.
Proof.
  unfold handleBulkUpload_newTree, await.
  destruct (compressImage w file _) as [compressedBase64| |]; try discriminate.
  destruct (analyzeTreeImage w _ _) as [[a|]| |]; try discriminate.
  repeat match goal with
         | |- context [if ?c then _ else _] => destruct c; try discriminate
         | |- context [match getCurrentPosition w with _ => _ end] =>
             destruct (getCurrentPosition w); try discriminate
         end;
    intros E; injection E as <-; repeat split.
Qed.

Lemma derived_initialTrees : Forall derived initialTrees.
Proof. repeat constructor. Qed.

Lemma derived_bulk_records (files : list (File * World)) :
  Forall derived (bulk_records files).
Proof.
  induction files as [|[file w] rest IH]; cbn [bulk_records]; [constructor|].
  destruct (handleBulkUpload_newTree w file) as [t| |] eqn:E;
    [|assumption|constructor].
  constructor; [|assumption]. exact (derived_handleBulkUpload_newTree w file t E).
Qed.

(** The map of [handleUpdateTree], position by position. *)
Lemma handleUpdateTree_lookup (updatedTree : TreeData) (st : MainAppState) (i : nat) :
  trees (handleUpdateTree updatedTree st) !! i =
    (fun t => if strict_eq (id t) (id updatedTree)
              then handleUpdateTree_finalTree updatedTree else t) <$> trees st !! i.
Proof.
  unfold handleUpdateTree, setEditingTree, setTrees. cbn [trees].
  apply list_lookup_fmap.
Qed.

(** What one run of the bulk loop leaves in the store. *)
Lemma handleBulkUpload_loop_trees (files : list (File * World)) (st : MainAppState) :
  trees (state_of (handleBulkUpload_loop files st))
  = (reverse (bulk_records files) ++ trees st)%list.
Proof.
  revert st. induction files as [|[file w] rest IH]; intros st; [reflexivity|].
  cbn [handleBulkUpload_loop bulk_records].
  destruct (handleBulkUpload_newTree w file) as [t| |]; [| |reflexivity].
  - rewrite IH. cbn [trees setBulkUploadProgress setTrees].
    rewrite reverse_cons, <- app_assoc. reflexivity.
  - rewrite IH. reflexivity.
Qed.

Lemma handleBulkUpload_loop_localStorage (files : list (File * World)) (st : MainAppState) :
  working (localStorage st) ->
  localStorage (state_of (handleBulkUpload_loop files st))
  = match bulk_records files with
    | [] => localStorage st
    | _ :: _ =>
        (persistTrees (trees (state_of (handleBulkUpload_loop files st))) (localStorage st)).2
    end.
Proof.
  revert st. induction files as [|[file w] rest IH]; intros st Hw; [reflexivity|].
  cbn [handleBulkUpload_loop bulk_records].
  destruct (handleBulkUpload_newTree w file) as [t| |]; [| |reflexivity].
  - rewrite IH, handleBulkUpload_loop_trees
      by (cbn [localStorage setBulkUploadProgress setTrees];
          apply working_persistTrees; exact Hw).
    cbn [trees localStorage setBulkUploadProgress setTrees].
    destruct (bulk_records rest); [reflexivity|]. apply persistTrees_twice. exact Hw.
  - rewrite IH by exact Hw. cbn [trees localStorage setBulkUploadProgress]. reflexivity.
Qed.

Lemma handleBulkUpload_trees (files : list (File * World)) (st : MainAppState) :
  trees (state_of (handleBulkUpload files st))
  = (reverse (bulk_records files) ++ trees st)%list.
Proof. unfold handleBulkUpload. rewrite handleBulkUpload_loop_trees. reflexivity. Qed.
End Store.

Section StoreClaims.
Context `{Estimator}.

(** C1. Every record placed in the collection by the seed dataset, by
    [handleAddTree], by [handleUpdateTree] or by [handleBulkUpload] has
    its [carbon] and [ecosystemServices] fields equal to the Estimator's
    output on the record's own measurements; an update keeps the edited
    source fields and recomputes both derived fields from them; what the
    persistence effect writes after each operation is the text of the
    collection that holds the recomputed records; and a collection in
    which every record has this property keeps it under the three
    operations. *)
Theorem derived_fields_recomputed :
  (forall i sp d h c p n seed la lo dt, derived (createTree i sp d h c p n seed la lo dt))
  /\ Forall derived initialTrees
  /\ (forall now newTreeData st,
        let st' := handleAddTree now newTreeData st in
        exists newTree,
          trees st' = newTree :: trees st /\ derived newTree
          /\ (working (localStorage st) -> persisted st'))
  /\ (forall updatedTree st,
        let st' := handleUpdateTree updatedTree st in
        exists finalTree,
          same_source_fields finalTree updatedTree /\ derived finalTree
          /\ Forall2 (fun old new => new = old \/ new = finalTree) (trees st) (trees st')
          /\ (working (localStorage st) -> persisted st'))
  /\ (forall files st,
        let st' := state_of (handleBulkUpload files st) in
        exists added,
          trees st' = (added ++ trees st)%list /\ Forall derived added
          /\ (working (localStorage st) -> added <> [] -> persisted st'))
  /\ (forall st, Forall derived (trees st) ->
        (forall now newTreeData, Forall derived (trees (handleAddTree now newTreeData st)))
        /\ (forall updatedTree, Forall derived (trees (handleUpdateTree updatedTree st)))
        /\ (forall files, Forall derived (trees (state_of (handleBulkUpload files st))))).
Proof.
  split; [intros; split; reflexivity|].
  split; [exact derived_initialTrees|].
  split.
  { intros now newTreeData st st'. exists (handleAddTree_newTree now newTreeData).
    split; [reflexivity|]. split; [apply derived_handleAddTree_newTree|].
    intros Hw. exact (setTrees_persisted _ st Hw). }
  split.
  { intros updatedTree st st'. exists (handleUpdateTree_finalTree updatedTree).
    split; [apply handleUpdateTree_finalTree_source|].
    split; [apply derived_handleUpdateTree_finalTree|].
    split; [|intros Hw; exact (setTrees_persisted _ st Hw)].
    subst st'. unfold handleUpdateTree, setEditingTree, setTrees. cbn [trees].
    induction (trees st) as [|t l IH]; [constructor|].
    rewrite fmap_cons. constructor; [|exact IH].
    case_match; [right|left]; reflexivity. }
  split.
  { intros files st st'. exists (reverse (bulk_records files)).
    split; [apply handleBulkUpload_trees|].
    split; [apply Forall_reverse, derived_bulk_records|].
    intros Hw Hne. subst st'. unfold persisted, handleBulkUpload.
    rewrite handleBulkUpload_loop_localStorage by exact Hw.
    destruct (bulk_records files) as [|t l] eqn:E; [contradiction|].
    cbn [localStorage setBulkUploadProgress setIsBulkUploading].
    rewrite persistTrees_working by assumption. cbn [snd Storage.items].
    apply lookup_insert_eq. }
  intros st Hst. split; [|split].
  - intros now newTreeData. constructor; [apply derived_handleAddTree_newTree | exact Hst].
  - intros updatedTree. unfold handleUpdateTree, setEditingTree, setTrees. cbn [trees].
    apply Forall_fmap. eapply Forall_impl; [exact Hst|].
    intros t Ht. cbn. case_match;
      [apply derived_handleUpdateTree_finalTree | exact Ht].
  - intros files. rewrite handleBulkUpload_trees.
    apply Forall_app. split; [apply Forall_reverse, derived_bulk_records | exact Hst].
Qed.


(** C4. [handleAddTree] builds a record from the form entry: it gives it
    [Date.now()] as identifier, copies the entry's fields, fills the
    derived fields with the Estimator's output, and puts it in front of
    the collection, whose records stay as they were and in their order.
    Each record [handleBulkUpload] builds gets [Date.now() + Math.random()]
    as identifier and the Estimator's output as derived fields, and is put
    in front of the collection as well, so that the records of a run end up
    before the earlier ones, the latest first. *)
Theorem add_prepends :
  (forall now newTreeData st,
     exists newTree,
       trees (handleAddTree now newTreeData st) = newTree :: trees st
       /\ id newTree = now
       /\ derived newTree
       /\ species newTree = NewTreeData.species newTreeData
       /\ dbh newTree = NewTreeData.dbh newTreeData
       /\ height newTree = NewTreeData.height newTreeData
       /\ condition newTree = NewTreeData.condition newTreeData
       /\ proximityToBuilding newTree = NewTreeData.proximityToBuilding newTreeData
       /\ notes newTree = NewTreeData.notes newTreeData
       /\ photo newTree = NewTreeData.photo newTreeData
       /\ latitude newTree = NewTreeData.latitude newTreeData
       /\ longitude newTree = NewTreeData.longitude newTreeData
       /\ inventoryDate newTree = NewTreeData.inventoryDate newTreeData)
  /\ (forall file w rest st newTree,
        handleBulkUpload_newTree w file = Resolved newTree ->
        id newTree = (Date_now w + Math_random w)%float
        /\ derived newTree
        /\ exists st1, trees st1 = newTree :: trees st
                       /\ handleBulkUpload_loop ((file, w) :: rest) st
                          = handleBulkUpload_loop rest st1)
  /\ (forall files st,
        trees (state_of (handleBulkUpload files st))
        = (reverse (bulk_records files) ++ trees st)%list).
Proof.
  split.
  { intros now newTreeData st. exists (handleAddTree_newTree now newTreeData).
    split; [reflexivity|]. split; [reflexivity|].
    split; [apply derived_handleAddTree_newTree|]. repeat split. }
  split.
  { intros file w rest st newTree E.
    split; [exact (proj1 (handleBulkUpload_newTree_fields w file newTree E))|].
    split; [exact (derived_handleBulkUpload_newTree w file newTree E)|].
    cbn [handleBulkUpload_loop]. rewrite E.
    eexists. split; [|reflexivity]. reflexivity. }
  intros files st. apply handleBulkUpload_trees.
Qed.

(** C5. [handleUpdateTree] re-invokes the Estimator on the edited
    measurements and replaces in place: the collection keeps its length;
    a record whose identifier is not [===] to the updated record's stays
    what it was, where it was; a record whose identifier is, is replaced
    at its position by the final record, which is the updated record with
    both derived fields recomputed from its measurements. *)
Theorem update_replaces_in_place (updatedTree : TreeData) (st : MainAppState) :
  let st' := handleUpdateTree updatedTree st in
  let finalTree := handleUpdateTree_finalTree updatedTree in
  length (trees st') = length (trees st)
  /\ (forall i t, trees st !! i = Some t ->
        (strict_eq (id t) (id updatedTree) = false -> trees st' !! i = Some t)
        /\ (strict_eq (id t) (id updatedTree) = true -> trees st' !! i = Some finalTree))
  /\ same_source_fields finalTree updatedTree
  /\ carbon finalTree
     = calculateCarbonMetrics (dbh updatedTree) (height updatedTree) (condition updatedTree)
  /\ ecosystemServices finalTree
     = calculateEcosystemServices (dbh updatedTree) (proximityToBuilding updatedTree)
         (condition updatedTree).
Proof.
  intros st' finalTree. split.
  { subst st'. unfold handleUpdateTree, setEditingTree, setTrees. cbn [trees].
    apply length_fmap. }
  split.
  { intros i t Hi. subst st' finalTree. rewrite handleUpdateTree_lookup, Hi.
    cbn [fmap option_fmap option_map]. split; intros ->; reflexivity. }
  split; [apply handleUpdateTree_finalTree_source|]. split; reflexivity.
Qed.
End StoreClaims.

(** ** The bulk import loop *)

(** An image that the browser reads but cannot decode leaves the promise
    of [compressImage] unsettled: [img.onload] is the only handler set on
    the image. *)
Lemma compressImage_pending (w : World) (file : File) (quality : number) (result : string) :
  FileReader_readAsDataURL w file = Normal result ->
  Image_onload w result = None ->
  compressImage w file quality = Pending.
Proof. intros Hread Himg. unfold compressImage. rewrite Hread, Himg. reflexivity. Qed.

(** The progress record of the state the loop goes on with, from the one
    of the state before the iteration. *)
Ltac progress_of_next_state Hp Hnext :=
  match goal with
  | |- context [handleBulkUpload_loop _ ?s] =>
      eassert (Hnext : bulkUploadProgress s = Some _)
        by (cbn [bulkUploadProgress setBulkUploadProgress setTrees]; rewrite Hp; reflexivity)
  end.

Section BulkUpload.
Context `{Estimator}.

(** The counters along the loop: [total] is not touched, every record
    placed in the store is counted as a success, and the files counted as
    processed are the successes and the failures recorded by the loop. *)
Lemma handleBulkUpload_loop_progress (files : list (File * World)) (st : MainAppState)
    (p : BulkUploadProgress.t) :
  bulkUploadProgress st = Some p ->
  exists p',
    bulkUploadProgress (state_of (handleBulkUpload_loop files st)) = Some p'
    /\ BulkUploadProgress.total p' = BulkUploadProgress.total p
    /\ BulkUploadProgress.successes p'
       = BulkUploadProgress.successes p + length (bulk_records files)
    /\ BulkUploadProgress.processed p' + BulkUploadProgress.successes p
         + length (BulkUploadProgress.failures p)
       = BulkUploadProgress.processed p + BulkUploadProgress.successes p'
         + length (BulkUploadProgress.failures p')
    /\ BulkUploadProgress.processed p' <= BulkUploadProgress.processed p + length files.
Proof.
  revert st p. induction files as [|[file w] rest IH]; intros st p Hp.
  { exists p. cbn. repeat split; try assumption; lia. }
  cbn [handleBulkUpload_loop bulk_records].
  destruct (handleBulkUpload_newTree w file) as [t|err|].
  - progress_of_next_state Hp Hnext.
    destruct (IH _ _ Hnext) as (p' & Hp' & Ht & Hs & Hinv & Hle).
    exists p'. split; [exact Hp'|]. cbn in Ht, Hs, Hinv, Hle |- *.
    repeat split; lia.
  - progress_of_next_state Hp Hnext.
    destruct (IH _ _ Hnext) as (p' & Hp' & Ht & Hs & Hinv & Hle).
    exists p'. split; [exact Hp'|]. cbn in Ht, Hs, Hinv, Hle |- *.
    rewrite length_app in Hinv. cbn in Hinv.
    repeat split; lia.
  - exists p. cbn. repeat split; try assumption; lia.
Qed.

(** When every [try] block settles the loop is left, and every file has
    been counted as processed. *)
Lemma handleBulkUpload_loop_completed (files : list (File * World)) (st : MainAppState)
    (p : BulkUploadProgress.t) :
  Forall settles files ->
  bulkUploadProgress st = Some p ->
  exists st' p',
    handleBulkUpload_loop files st = Completed st'
    /\ bulkUploadProgress st' = Some p'
    /\ BulkUploadProgress.processed p' = BulkUploadProgress.processed p + length files.
Proof.
  intros Hall. revert st p. induction Hall as [|[file w] rest Hfw _ IH]; intros st p Hp.
  { exists st, p. cbn. repeat split; try assumption; lia. }
  unfold settles in Hfw. cbn [fst snd] in Hfw. cbn [handleBulkUpload_loop].
  destruct (handleBulkUpload_newTree w file) as [t|err|]; [| |contradiction].
  - progress_of_next_state Hp Hnext.
    destruct (IH _ _ Hnext) as (st' & p' & Hrun & Hp' & Hn).
    exists st', p'. split; [exact Hrun|]. split; [exact Hp'|]. cbn in Hn |- *. lia.
  - progress_of_next_state Hp Hnext.
    destruct (IH _ _ Hnext) as (st' & p' & Hrun & Hp' & Hn).
    exists st', p'. split; [exact Hrun|]. split; [exact Hp'|]. cbn in Hn |- *. lia.
Qed.

(** The counters of a run in which every [try] block settles: all [N]
    files are processed, and each is a success or a recorded failure. *)
Lemma handleBulkUpload_counters (files : list (File * World)) (st : MainAppState) :
  Forall settles files ->
  exists st' p,
    handleBulkUpload files st = Completed st'
    /\ bulkUploadProgress st' = Some p
    /\ BulkUploadProgress.total p = length files
    /\ BulkUploadProgress.processed p = length files
    /\ BulkUploadProgress.successes p + length (BulkUploadProgress.failures p) = length files
    /\ BulkUploadProgress.successes p = length (bulk_records files).
Proof.
  intros Hall. unfold handleBulkUpload.
  set (st0 := setBulkUploadProgress _ _).
  set (p0 := {| BulkUploadProgress.total := length files;
                BulkUploadProgress.processed := 0; BulkUploadProgress.successes := 0;
                BulkUploadProgress.failures := [] |}).
  assert (Hp0 : bulkUploadProgress st0 = Some p0) by reflexivity.
  destruct (handleBulkUpload_loop_completed files st0 p0 Hall Hp0) as (st' & p' & Hrun & Hp' & Hn).
  destruct (handleBulkUpload_loop_progress files st0 p0 Hp0) as (q & Hq & Ht & Hs & Hinv & _).
  rewrite Hrun in Hq. cbn [state_of] in Hq. rewrite Hp' in Hq. injection Hq as <-.
  exists st', p'. split; [exact Hrun|]. split; [exact Hp'|].
  cbn in Ht, Hs, Hinv, Hn. repeat split; lia.
Qed.

(** A file whose [try] block does not settle suspends the run there: the
    state stays what the files before it made of it, and the files after
    it are never looked at. *)
Lemma handleBulkUpload_loop_suspended (done rest : list (File * World))
    (file : File) (w : World) (st : MainAppState) :
  Forall settles done ->
  handleBulkUpload_newTree w file = Pending ->
  handleBulkUpload_loop (done ++ (file, w) :: rest) st
  = Suspended (state_of (handleBulkUpload_loop done st)).
Proof.
  intros Hdone Hpending. revert st.
  induction Hdone as [|[f v] done Hfv _ IH]; intros st.
  { cbn. rewrite Hpending. reflexivity. }
  unfold settles in Hfv. cbn [fst snd] in Hfv. cbn [app handleBulkUpload_loop].
  destruct (handleBulkUpload_newTree v f) as [t|err|]; [apply IH | apply IH | contradiction].
Qed.
End BulkUpload.

(** C8, at a batch whose second file is not an image. The first file fails
    (the analysis service answers with an error): the failure is recorded
    and the loop goes on. The second file is read, but the browser cannot
    decode it: [compressImage] never settles, the run is suspended, no
    failure is recorded for the file, and the third file, a good
    photograph, is never processed. The counters stay at one processed file
    out of three. *)
Theorem bulk_upload_suspended_by_undecodable_file :
  exists st',
    @handleBulkUpload Sample.estimator
      [Sample.photo_unknown; Sample.not_an_image; Sample.photo_ok] Sample.mainApp
    = Suspended st'
    /\ bulkUploadProgress st'
       = Some {| BulkUploadProgress.total := 3; BulkUploadProgress.processed := 1;
                 BulkUploadProgress.successes := 0;
                 BulkUploadProgress.failures :=
                   [ {| BulkUploadProgress.fileName := "pohon-2.jpg";
                        BulkUploadProgress.error := "503" |} ] |}
    /\ trees st' = Sample.seed.
Proof. eexists. split; [vm_compute; reflexivity|]. split; vm_compute; reflexivity. Qed.

(** The same batch without the undecodable file. *)
Example bulk_upload_completed :
  exists st' p,
    @handleBulkUpload Sample.estimator [Sample.photo_unknown; Sample.photo_ok] Sample.mainApp
    = Completed st'
    /\ bulkUploadProgress st' = Some p
    /\ BulkUploadProgress.total p = 2
    /\ BulkUploadProgress.processed p = 2
    /\ BulkUploadProgress.successes p + length (BulkUploadProgress.failures p) = 2
    /\ BulkUploadProgress.successes p
       = length (@bulk_records Sample.estimator [Sample.photo_unknown; Sample.photo_ok]).
Proof.
  apply (@handleBulkUpload_counters Sample.estimator).
  repeat constructor; vm_compute; intros E; discriminate E.
Qed.

(** ** Height and the ecosystem services *)

(** C10. The ecosystem services of a record do not depend on its height:
    two form entries, two edited records, or two seed records that differ
    only in their height get the same [ecosystemServices], in the record
    that is built and in every position of the collection afterwards. The
    Estimator receives the height only when it computes [carbon]. *)
Theorem ecosystemServices_ignores_height `{Estimator} (h1 h2 : number) :
  (forall now sp d c p n ph la lo dt st,
     let entry h :=
       {| NewTreeData.species := sp; NewTreeData.dbh := d; NewTreeData.height := h;
          NewTreeData.condition := c; NewTreeData.proximityToBuilding := p;
          NewTreeData.notes := n; NewTreeData.photo := ph; NewTreeData.latitude := la;
          NewTreeData.longitude := lo; NewTreeData.inventoryDate := dt |} in
     ecosystemServices (handleAddTree_newTree now (entry h1))
     = ecosystemServices (handleAddTree_newTree now (entry h2))
     /\ ecosystemServices <$> trees (handleAddTree now (entry h1) st)
        = ecosystemServices <$> trees (handleAddTree now (entry h2) st)
     /\ carbon (handleAddTree_newTree now (entry h1)) = calculateCarbonMetrics d h1 c)
  /\ (forall i sp d c p n ph la lo dt ca es st,
        let edited h :=
          {| id := i; species := sp; dbh := d; height := h; condition := c;
             proximityToBuilding := p; notes := n; photo := ph; latitude := la;
             longitude := lo; inventoryDate := dt; carbon := ca; ecosystemServices := es |} in
        ecosystemServices (handleUpdateTree_finalTree (edited h1))
        = ecosystemServices (handleUpdateTree_finalTree (edited h2))
        /\ ecosystemServices <$> trees (handleUpdateTree (edited h1) st)
           = ecosystemServices <$> trees (handleUpdateTree (edited h2) st)
        /\ carbon (handleUpdateTree_finalTree (edited h1)) = calculateCarbonMetrics d h1 c)
  /\ (forall i sp d c p n seed la lo dt,
        ecosystemServices (createTree i sp d h1 c p n seed la lo dt)
        = ecosystemServices (createTree i sp d h2 c p n seed la lo dt)
        /\ carbon (createTree i sp d h1 c p n seed la lo dt) = calculateCarbonMetrics d h1 c).
Proof.
  split; [|split].
  - intros now sp d c p n ph la lo dt st entry. repeat split.
  - intros i sp d c p n ph la lo dt ca es st edited.
    split; [reflexivity|]. split; [|reflexivity].
    unfold handleUpdateTree, setEditingTree, setTrees. cbn [trees].
    rewrite <- !list_fmap_compose. apply list_fmap_ext. intros _ t _.
    unfold compose. subst edited. cbn [id handleUpdateTree_finalTree].
    destruct (strict_eq (id t) i); reflexivity.
  - intros i sp d c p n seed la lo dt. split; reflexivity.
Qed.

(** ** The statements at concrete inputs *)



(** The same edit: the collection keeps its three records, the "Jati" stays
    first and untouched, the "Pinus" is replaced where it was. *)
Lemma update_replaces_in_place_witness :
  let t := (@createTree Sample.estimator 2 "Pinus" 45 30 HEALTHY Far
              "Pohon pinus tinggi di dekat sungai." "pine" 34.055 (-118.245)
              "2023-10-26T11:30:00Z")%float in
  let updatedTree :=
    {| id := id t; species := species t; dbh := 47%float; height := height t;
       condition := condition t; proximityToBuilding := proximityToBuilding t;
       notes := notes t; photo := photo t; latitude := latitude t;
       longitude := longitude t; inventoryDate := inventoryDate t;
       carbon := carbon t; ecosystemServices := ecosystemServices t |} in
  let st' := @handleUpdateTree Sample.estimator updatedTree Sample.mainApp in
  length (trees st') = 3
  /\ st'.(trees) !! 0 = Sample.seed !! 0
  /\ st'.(trees) !! 1 = Some (@handleUpdateTree_finalTree Sample.estimator updatedTree).
Proof.
  intros t updatedTree st'.
  destruct (@update_replaces_in_place Sample.estimator updatedTree Sample.mainApp)
    as (Hlen & Hpos & _).
  split; [exact Hlen|]. split.
  - destruct (Sample.seed !! 0) as [t0|] eqn:E0; [|discriminate E0].
    apply (Hpos 0 t0 E0). vm_compute in E0. injection E0 as <-. reflexivity.
  - apply (Hpos 1 t); reflexivity.
Defined.

(** A form entry is added to the seed dataset on a working storage. *)
Lemma derived_fields_recomputed_witness :
  let st' := @handleAddTree Sample.estimator 1714550400000%float (Sample.entry (-6.2)%float)
               Sample.mainApp in
  exists newTree,
    trees st' = newTree :: Sample.seed /\ @derived Sample.estimator newTree /\ persisted st'.
Proof.
  intros st'.
  destruct (@derived_fields_recomputed Sample.estimator) as [_ [_ [Hadd _]]].
  destruct (Hadd 1714550400000%float (Sample.entry (-6.2)%float) Sample.mainApp)
    as (newTree & Htrees & Hderived & Hpersisted).
  exists newTree. split; [exact Htrees|]. split; [exact Hderived|].
  apply Hpersisted. split; reflexivity.
Defined.

(** A batch of two photographs on the seed dataset: the second one fails,
    the record of the first is put in front of the three seed records. *)
Lemma add_prepends_witness :
  exists newTree,
    @handleBulkUpload_newTree Sample.estimator Sample.photo_ok.2 Sample.photo_ok.1
    = Resolved newTree
    /\ trees (state_of (@handleBulkUpload Sample.estimator
                          [Sample.photo_ok; Sample.photo_unknown] Sample.mainApp))
       = newTree :: Sample.seed.
Proof.
  destruct (@add_prepends Sample.estimator) as [_ [_ Hbulk]].
  eexists. split; [vm_compute; reflexivity|].
  rewrite (Hbulk [Sample.photo_ok; Sample.photo_unknown] Sample.mainApp).
  vm_compute. reflexivity.
Defined.

(** * Further properties of the code *)

(** ** The session check and the login gate *)

(** The session check never throws and never writes: it ends the loading
    phase, leaves the session storage as it found it, and authenticates the
    page exactly when the storage can be read and holds the text [true]
    under the key. *)
Theorem sessionCheck_reads_the_flag (st : AppState) :
  (sessionCheck st).1 = Normal tt
  /\ isLoading (sessionCheck st).2 = false
  /\ sessionStorage (sessionCheck st).2 = sessionStorage st
  /\ (isAuthenticated (sessionCheck st).2 = true <->
      Storage.blocked (sessionStorage st) = false
      /\ Storage.items (sessionStorage st) !! "isLoggedIn" = Some "true").
Proof.
  unfold sessionCheck, try_finally, try_catch, bind, on_sessionStorage, Storage.getItem,
    setIsAuthenticated, setIsLoading.
  destruct (Storage.blocked (sessionStorage st)) eqn:Hb; cbn.
  - split; [reflexivity|]. split; [reflexivity|]. split; [reflexivity|].
    split; [intros E; discriminate E | intros [E _]; discriminate E].
  - split; [reflexivity|]. split; [reflexivity|]. split; [reflexivity|]. split.
    + intros E. apply bool_decide_eq_true in E. split; [reflexivity | exact E].
    + intros [_ E]. apply bool_decide_eq_true. exact E.
Qed.

Lemma App_step_stays_logged_out (st : AppState) (ev : AppEvent) :
  is_admin_Login ev = false ->
  isAuthenticated st = false ->
  Storage.items (sessionStorage st) !! "isLoggedIn" <> Some "true" ->
  isAuthenticated (App_step st ev) = false
  /\ Storage.items (sessionStorage (App_step st ev)) !! "isLoggedIn" <> Some "true".
Proof.
  intros Hev Hauth Hitem. destruct ev as [|password|]; cbn [App_step].
  - unfold sessionCheck, App_initial, try_finally, try_catch, bind, on_sessionStorage,
      Storage.getItem, setIsAuthenticated, setIsLoading. cbn [sessionStorage].
    destruct (Storage.blocked (sessionStorage st)); cbn; [split; [reflexivity|exact Hitem]|].
    split; [|exact Hitem]. apply bool_decide_eq_false. exact Hitem.
  - cbn [is_admin_Login] in Hev. apply String.eqb_neq in Hev.
    rewrite handleLogin_wrong by exact Hev. cbn [snd]. split; assumption.
  - unfold handleLogout, try_catch, bind, on_sessionStorage, Storage.removeItem,
      setIsAuthenticated, ret.
    destruct (Storage.blocked (sessionStorage st)); cbn; [split; [reflexivity|exact Hitem]|].
    split; [reflexivity|]. rewrite lookup_delete_eq. discriminate.
Qed.

(** Nobody gets in without the admin password: from a page that is not
    authenticated, on a session storage that does not hold the flag, no
    sequence of page loads, logouts and login attempts with other passwords
    authenticates the page, stores the flag, or makes [App] render
    [MainApp]. *)
Theorem no_access_without_admin_password (st : AppState) (evs : list AppEvent) :
  isAuthenticated st = false ->
  Storage.items (sessionStorage st) !! "isLoggedIn" <> Some "true" ->
  forallb (fun ev => negb (is_admin_Login ev)) evs = true ->
  isAuthenticated (App_run st evs) = false
  /\ Storage.items (sessionStorage (App_run st evs)) !! "isLoggedIn" <> Some "true"
  /\ App_render (App_run st evs) <> MainAppScreen.
Proof.
  intros Hauth Hitem Hevs.
  assert (Hinv : isAuthenticated (App_run st evs) = false
                 /\ Storage.items (sessionStorage (App_run st evs)) !! "isLoggedIn"
                    <> Some "true").
  { revert st Hauth Hitem. induction evs as [|ev evs IH]; intros st Hauth Hitem;
      [split; assumption|].
    cbn [forallb] in Hevs. apply andb_true_iff in Hevs as [Hev Hevs].
    apply negb_true_iff in Hev.
    destruct (App_step_stays_logged_out st ev Hev Hauth Hitem) as [Hauth' Hitem'].
    unfold App_run. cbn [foldl]. apply IH; assumption. }
  destruct Hinv as [Hauth' Hitem']. split; [exact Hauth'|]. split; [exact Hitem'|].
  unfold App_render. rewrite Hauth'. destruct (isLoading _); discriminate.
Qed.

(** A fresh page on an empty session storage: two wrong passwords, a
    reload and a logout. *)
Lemma no_access_without_admin_password_witness :
  App_render (App_run (App_initial Sample.storage)
                [PageLoad; Login "admin"; Login "jaga-pohon"; PageLoad; Logout])
  <> MainAppScreen.
Proof.
  apply (no_access_without_admin_password (App_initial Sample.storage)
           [PageLoad; Login "admin"; Login "jaga-pohon"; PageLoad; Logout]).
  - reflexivity.
  - vm_compute. discriminate.
  - reflexivity.
Defined.

(** Logging in twice is logging in once, logging out twice is logging out
    once, and a login followed by a logout gives back a logged-out page
    whose session storage is what it was before the login, when it held no
    flag then. *)
Theorem login_logout_compose (st : AppState) :
  handleLogin ADMIN_PASSWORD (handleLogin ADMIN_PASSWORD st).2
  = (Normal true, (handleLogin ADMIN_PASSWORD st).2)
  /\ handleLogout (handleLogout st).2 = (Normal tt, (handleLogout st).2)
  /\ (Storage.items (sessionStorage st) !! "isLoggedIn" = None ->
      sessionStorage (handleLogout (handleLogin ADMIN_PASSWORD st).2).2 = sessionStorage st
      /\ isAuthenticated (handleLogout (handleLogin ADMIN_PASSWORD st).2).2 = false).
Proof.
  destruct st as [auth loading [blocked full items]].
  unfold handleLogin, handleLogout. rewrite String.eqb_refl.
  unfold bind, try_catch, on_sessionStorage, Storage.setItem, Storage.removeItem,
    setIsAuthenticated, ret. cbn.
  destruct blocked; cbn; [repeat split|].
  destruct full; cbn.
  - rewrite delete_delete_eq. split; [reflexivity|]. split; [reflexivity|].
    intros Hnone. rewrite delete_id by exact Hnone. split; reflexivity.
  - rewrite insert_insert_eq, delete_delete_eq. split; [reflexivity|].
    split; [reflexivity|].
    intros Hnone. rewrite delete_insert_id by exact Hnone. split; reflexivity.
Qed.

(** A login and a logout on a fresh page with an empty session storage. *)
Lemma login_logout_compose_witness :
  sessionStorage (handleLogout (handleLogin ADMIN_PASSWORD (App_initial Sample.storage)).2).2
  = Sample.storage.
Proof.
  destruct (login_logout_compose (App_initial Sample.storage)) as (_ & _ & Hround).
  apply Hround. reflexivity.
Defined.

(** ** The persistence effect and the initializer *)

(** The persistence effect never throws and touches nothing but the
    inventory item: the other items and the state of the storage stay as
    they were; a write the storage accepts puts the text of the collection
    under the key; a write it refuses leaves the storage as it was. *)
Theorem persistTrees_effect (trees : list TreeData) (ls : Storage.t JSON.text) :
  (persistTrees trees ls).1 = Normal tt
  /\ Storage.blocked (persistTrees trees ls).2 = Storage.blocked ls
  /\ Storage.quotaExceeded (persistTrees trees ls).2 = Storage.quotaExceeded ls
  /\ (forall key, key <> "treeInventoryData" ->
        Storage.items (persistTrees trees ls).2 !! key = Storage.items ls !! key)
  /\ (working ls ->
        Storage.items (persistTrees trees ls).2 !! "treeInventoryData"
        = Some (JSON.stringify (json_of_trees trees)))
  /\ (Storage.blocked ls = true \/ Storage.quotaExceeded ls = true ->
        (persistTrees trees ls).2 = ls).
Proof.
  split; [apply persistTrees_normal|].
  split; [|split; [|split; [|split]]].
  - unfold persistTrees, try_catch, Storage.setItem, ret.
    destruct (Storage.blocked ls) eqn:Hb; [exact Hb|].
    destruct (Storage.quotaExceeded ls); [exact Hb|]. reflexivity.
  - unfold persistTrees, try_catch, Storage.setItem, ret.
    destruct (Storage.blocked ls); [reflexivity|].
    destruct (Storage.quotaExceeded ls) eqn:Hq; [exact Hq|]. reflexivity.
  - intros key Hkey. unfold persistTrees, try_catch, Storage.setItem, ret.
    destruct (Storage.blocked ls); [reflexivity|].
    destruct (Storage.quotaExceeded ls); [reflexivity|].
    cbn [snd Storage.items]. apply lookup_insert_ne. congruence.
  - intros Hw. rewrite persistTrees_working by exact Hw. cbn [snd Storage.items].
    apply lookup_insert_eq.
  - apply persistTrees_not_working.
Qed.

(** The initializer reads and, at most, removes: it leaves every other item
    and the state of the storage as they were, and the inventory item too
    unless that item is a non-empty text that is not JSON, which it removes.
    A stored array is returned as it is and never replaced by the seed
    dataset, the empty array included: an inventory saved empty is loaded
    empty. *)
Theorem loadTrees_frame `{Estimator} (ls : Storage.t JSON.text) :
  (forall key, key <> "treeInventoryData" ->
     Storage.items (loadTrees ls).2 !! key = Storage.items ls !! key)
  /\ Storage.blocked (loadTrees ls).2 = Storage.blocked ls
  /\ Storage.quotaExceeded (loadTrees ls).2 = Storage.quotaExceeded ls
  /\ ((loadTrees ls).2 = ls
      \/ exists raw, raw <> EmptyString
           /\ Storage.items ls !! "treeInventoryData" = Some (JSON.Malformed raw)
           /\ Storage.items (loadTrees ls).2 !! "treeInventoryData" = None)
  /\ (Storage.blocked ls = false ->
      forall elements,
        Storage.items ls !! "treeInventoryData" = Some (JSON.Document (JSON.Array elements)) ->
        loadTrees ls = (Normal (as_TreeData_array elements), ls))
  /\ (Storage.blocked ls = false ->
      Storage.items ls !! "treeInventoryData" = Some (JSON.Document (JSON.Array [])) ->
      loadTrees ls = (Normal (Records []), ls)).
Proof.
  destruct (Storage.blocked ls) eqn:Hb.
  - rewrite (loadTrees_blocked ls Hb). cbn [snd].
    split; [reflexivity|]. split; [exact Hb|]. split; [reflexivity|].
    split; [left; reflexivity|]. split; intros E; discriminate E.
  - rewrite (loadTrees_readable ls Hb).
    destruct (Storage.items ls !! "treeInventoryData") as [[v|raw]|] eqn:E.
    + assert (Hsame : (match v with
                       | JSON.Array elements => (Normal (as_TreeData_array elements), ls)
                       | _ => (Normal (Records initialTrees), ls)
                       end).2 = ls) by (destruct v; reflexivity).
      rewrite Hsame. split; [reflexivity|]. split; [exact Hb|]. split; [reflexivity|].
      split; [left; reflexivity|].
      split; [intros _ elements Hv | intros _ Hv]; injection Hv as ->; reflexivity.
    + destruct raw as [|c raw]; cbn [snd Storage.items Storage.blocked Storage.quotaExceeded].
      * split; [reflexivity|]. split; [exact Hb|]. split; [reflexivity|].
        split; [left; reflexivity|]. split; [intros _ elements Hv | intros _ Hv];
          discriminate Hv.
      * split; [intros key Hkey; apply lookup_delete_ne; congruence|].
        split; [reflexivity|]. split; [reflexivity|].
        split; [right; exists (String c raw); split; [discriminate|];
                split; [reflexivity | apply lookup_delete_eq]|].
        split; [intros _ elements Hv | intros _ Hv]; discriminate Hv.
    + cbn [snd]. split; [reflexivity|]. split; [exact Hb|]. split; [reflexivity|].
      split; [left; reflexivity|]. split; [intros _ elements Hv | intros _ Hv];
        discriminate Hv.
Qed.

(** An inventory saved empty on a working storage is loaded empty. *)
Lemma loadTrees_frame_witness :
  (@loadTrees Sample.estimator (persistTrees [] Sample.storage).2).1 = Normal (Records []).
Proof.
  destruct (@loadTrees_frame Sample.estimator (persistTrees [] Sample.storage).2)
    as (_ & _ & _ & _ & _ & Hempty).
  rewrite Hempty; reflexivity.
Defined.

(** When the browser denies every access to the local storage, the
    initializer does not fall back to the seed dataset: the read throws,
    the [catch] block calls the storage again to remove the item, that call
    throws too, and the initializer throws. *)
Theorem loadTrees_throws_when_storage_is_denied `{Estimator} (ls : Storage.t JSON.text) :
  Storage.blocked ls = true ->
  (loadTrees ls).1 = Throw Storage.SecurityError.
Proof. intros Hb. rewrite (loadTrees_blocked ls Hb). reflexivity. Qed.

Lemma loadTrees_throws_when_storage_is_denied_witness :
  (@loadTrees Sample.estimator Sample.blocked_storage).1 = Throw Storage.SecurityError.
Proof.
  apply (@loadTrees_throws_when_storage_is_denied Sample.estimator Sample.blocked_storage).
  reflexivity.
Defined.

(** ** Sequences of operations on the store *)

Section Runs.
Context `{Estimator}.

(** What one event does to the collection and to the storage: nothing, or
    it replaces the collection (by one with a new record in front, or by the
    map of an update) and the effect runs on the new collection. *)
Lemma MainApp_step_shape (st : MainAppState) (ev : MainAppEvent) :
  (trees (MainApp_step st ev) = trees st
   /\ localStorage (MainApp_step st ev) = localStorage st)
  \/ (localStorage (MainApp_step st ev)
      = (persistTrees (trees (MainApp_step st ev)) (localStorage st)).2
      /\ ((exists t, derived t /\ trees (MainApp_step st ev) = t :: trees st)
          \/ exists updatedTree,
               trees (MainApp_step st ev)
               = (fun t => if strict_eq (id t) (id updatedTree)
                           then handleUpdateTree_finalTree updatedTree else t)
                 <$> trees st)).
Proof.
  destruct ev as [now newTreeData|file w|tree| |updatedTree]; cbn [MainApp_step].
  - right. split; [reflexivity|]. left. exists (handleAddTree_newTree now newTreeData).
    split; [apply derived_handleAddTree_newTree | reflexivity].
  - unfold handleBulkUpload_iteration.
    destruct (handleBulkUpload_newTree w file) as [t|err|] eqn:E.
    + right. split; [reflexivity|]. left. exists t.
      split; [exact (derived_handleBulkUpload_newTree w file t E) | reflexivity].
    + left. split; reflexivity.
    + left. split; reflexivity.
  - left. split; reflexivity.
  - left. split; reflexivity.
  - right. split; [reflexivity|]. right. exists updatedTree. reflexivity.
Qed.

Lemma persisted_after_write (st st' : MainAppState) :
  working (localStorage st) ->
  localStorage st' = (persistTrees (trees st') (localStorage st)).2 ->
  persisted st'.
Proof.
  intros Hw Hls. unfold persisted. rewrite Hls, persistTrees_working by exact Hw.
  cbn [snd Storage.items]. apply lookup_insert_eq.
Qed.

(** The derived fields stay the Estimator's output on the record's own
    measurements under every sequence of events, the iterations of a bulk
    import interleaved with the other handlers included. *)
Theorem derived_fields_invariant (st : MainAppState) (evs : list MainAppEvent) :
  Forall derived (trees st) -> Forall derived (trees (MainApp_run st evs)).
Proof.
  revert st. induction evs as [|ev evs IH]; intros st Hst; [exact Hst|].
  unfold MainApp_run. cbn [foldl]. apply IH.
  destruct (MainApp_step_shape st ev) as [[Htrees _]|[_ [(t & Ht & Htrees)|(u & Htrees)]]];
    rewrite Htrees.
  - exact Hst.
  - constructor; assumption.
  - apply Forall_fmap. eapply Forall_impl; [exact Hst|]. intros t Ht. cbn.
    destruct (strict_eq (id t) (id u)); [apply derived_handleUpdateTree_finalTree | exact Ht].
Qed.

(** On a storage that accepts writes, the stored text follows the
    collection: from a state in which the inventory item is the text of the
    collection, every sequence of events ends in such a state, and a reload
    then returns the collection as it is, when its numbers are ones that
    JSON keeps. *)
Theorem stored_text_follows_the_collection (st : MainAppState) (evs : list MainAppEvent) :
  working (localStorage st) ->
  persisted st ->
  persisted (MainApp_run st evs)
  /\ working (localStorage (MainApp_run st evs))
  /\ (Forall (fun t => TreeData_exact t = true) (trees (MainApp_run st evs)) ->
      loadTrees (localStorage (MainApp_run st evs))
      = (Normal (Records (trees (MainApp_run st evs))), localStorage (MainApp_run st evs))).
Proof.
  intros Hw Hp.
  assert (Hinv : persisted (MainApp_run st evs) /\ working (localStorage (MainApp_run st evs))).
  { revert st Hw Hp. induction evs as [|ev evs IH]; intros st Hw Hp; [split; assumption|].
    unfold MainApp_run. cbn [foldl]. apply IH.
    - destruct (MainApp_step_shape st ev) as [[_ Hls]|[Hls _]]; rewrite Hls;
        [exact Hw | apply working_persistTrees; exact Hw].
    - destruct (MainApp_step_shape st ev) as [[Htrees Hls]|[Hls _]].
      + unfold persisted. rewrite Htrees, Hls. exact Hp.
      + exact (persisted_after_write st _ Hw Hls). }
  destruct Hinv as [Hp' Hw']. split; [exact Hp'|]. split; [exact Hw'|].
  intros Hexact. rewrite loadTrees_readable by exact (proj1 Hw').
  unfold persisted in Hp'. rewrite Hp'.
  unfold JSON.stringify, json_of_trees, as_TreeData_array.
  rewrite (trees_of_json_of _ Hexact). reflexivity.
Qed.

(** An update whose identifier matches no record of the collection leaves
    the collection as it is (and closes the edit dialog). *)
Theorem update_of_unknown_id (updatedTree : TreeData) (st : MainAppState) :
  Forall (fun t => strict_eq (id t) (id updatedTree) = false) (trees st) ->
  trees (handleUpdateTree updatedTree st) = trees st
  /\ editingTree (handleUpdateTree updatedTree st) = None.
Proof.
  intros Hnone. split; [|reflexivity].
  unfold handleUpdateTree, setEditingTree, setTrees. cbn [trees].
  induction Hnone as [|t l Ht _ IH]; [reflexivity|].
  rewrite fmap_cons, IH. cbn [id handleUpdateTree_finalTree]. rewrite Ht. reflexivity.
Qed.

End Runs.

(** The seed dataset, then a tree added from the form, a bulk iteration
    that succeeds, an update of the first seed record and a cancelled edit. *)
Lemma derived_fields_invariant_witness :
  Forall (@derived Sample.estimator)
    (trees (@MainApp_run Sample.estimator Sample.mainApp
              [ AddTree 1714550400000%float (Sample.entry (-6.2)%float);
                BulkFile Sample.photo_ok.1 Sample.photo_ok.2;
                SaveEdit (@createTree Sample.estimator 1 "Jati" 61 26 HEALTHY Near "" "oak"
                            34.0522 (-118.2437) "2023-10-26T10:00:00Z")%float;
                StartEdit (@createTree Sample.estimator 2 "Pinus" 45 30 HEALTHY Far "" "pine"
                             34.055 (-118.245) "2023-10-26T11:30:00Z")%float;
                CancelEdit ])).
Proof.
  apply (@derived_fields_invariant Sample.estimator Sample.mainApp).
  repeat constructor.
Defined.

(** The same events from the state a first added tree leaves on a working
    storage. *)
Lemma stored_text_follows_the_collection_witness :
  let st := @handleAddTree Sample.estimator 1714550400000%float (Sample.entry (-6.2)%float)
              Sample.mainApp in
  let evs := [ BulkFile Sample.photo_ok.1 Sample.photo_ok.2;
               SaveEdit (@createTree Sample.estimator 1 "Jati" 61 26 HEALTHY Near "" "oak"
                           34.0522 (-118.2437) "2023-10-26T10:00:00Z")%float;
               CancelEdit ] in
  persisted (@MainApp_run Sample.estimator st evs)
  /\ (@loadTrees Sample.estimator (localStorage (@MainApp_run Sample.estimator st evs))).1
     = Normal (Records (trees (@MainApp_run Sample.estimator st evs))).
Proof.
  intros st evs.
  destruct (@stored_text_follows_the_collection Sample.estimator st evs)
    as (Hp & _ & Hload).
  - split; reflexivity.
  - vm_compute. reflexivity.
  - split; [exact Hp|]. rewrite Hload; [reflexivity|]. vm_compute. repeat constructor.
Defined.

(** An edit saved with an identifier that no seed record has. *)
Lemma update_of_unknown_id_witness :
  trees (@handleUpdateTree Sample.estimator
           (@createTree Sample.estimator 99 "Jati" 60 25 HEALTHY Near "" "oak"
              34.0522 (-118.2437) "2023-10-26T10:00:00Z")%float Sample.mainApp)
  = Sample.seed.
Proof.
  apply (@update_of_unknown_id Sample.estimator).
  repeat constructor.
Defined.

(** ** More on the bulk import *)

Lemma message_or_default_not_empty (err : Thrown) : message_or_default err <> EmptyString.
Proof.
  unfold message_or_default. destruct (message err) as [[|c m]|]; cbn; discriminate.
Qed.

Section BulkUploadMore.
Context `{Estimator}.

Lemma bulk_failures_not_empty (files : list (File * World)) :
  Forall (fun f => BulkUploadProgress.error f <> EmptyString) (bulk_failures files).
Proof.
  induction files as [|[file w] rest IH]; cbn [bulk_failures]; [constructor|].
  destruct (handleBulkUpload_newTree w file) as [t|err|]; [exact IH| |constructor].
  constructor; [apply message_or_default_not_empty | exact IH].
Qed.

(** The failures along the loop: the ones recorded before, then the ones
    of the run in the order of their files. *)
Lemma handleBulkUpload_loop_failures (files : list (File * World)) (st : MainAppState)
    (p : BulkUploadProgress.t) :
  bulkUploadProgress st = Some p ->
  exists p',
    bulkUploadProgress (state_of (handleBulkUpload_loop files st)) = Some p'
    /\ BulkUploadProgress.failures p'
       = (BulkUploadProgress.failures p ++ bulk_failures files)%list.
Proof.
  revert st p. induction files as [|[file w] rest IH]; intros st p Hp.
  { exists p. cbn. rewrite app_nil_r. split; [exact Hp | reflexivity]. }
  cbn [handleBulkUpload_loop bulk_failures].
  destruct (handleBulkUpload_newTree w file) as [t|err|].
  - progress_of_next_state Hp Hnext.
    destruct (IH _ _ Hnext) as (p' & Hp' & Hf). exists p'. split; [exact Hp' | exact Hf].
  - progress_of_next_state Hp Hnext.
    destruct (IH _ _ Hnext) as (p' & Hp' & Hf). exists p'. split; [exact Hp'|].
    rewrite Hf. cbn. rewrite <- app_assoc. reflexivity.
  - exists p. cbn. rewrite app_nil_r. split; [exact Hp | reflexivity].
Qed.

Lemma handleBulkUpload_loop_isBulkUploading (files : list (File * World)) (st : MainAppState) :
  isBulkUploading (state_of (handleBulkUpload_loop files st)) = isBulkUploading st.
Proof.
  revert st. induction files as [|[file w] rest IH]; intros st; [reflexivity|].
  cbn [handleBulkUpload_loop].
  destruct (handleBulkUpload_newTree w file); [rewrite IH | rewrite IH |]; reflexivity.
Qed.

(** The loop is left only when the [try] block of every file settles. *)
Lemma handleBulkUpload_loop_completed_settles (files : list (File * World))
    (st st' : MainAppState) :
  handleBulkUpload_loop files st = Completed st' -> Forall settles files.
Proof.
  revert st. induction files as [|[file w] rest IH]; intros st Hrun; [constructor|].
  cbn [handleBulkUpload_loop] in Hrun.
  destruct (handleBulkUpload_newTree w file) as [t|err|] eqn:E; [| |discriminate Hrun].
  - constructor; [|exact (IH _ Hrun)]. unfold settles. cbn [fst snd]. rewrite E. discriminate.
  - constructor; [|exact (IH _ Hrun)]. unfold settles. cbn [fst snd]. rewrite E. discriminate.
Qed.

(** The loop is the iteration, file after file. *)
Lemma handleBulkUpload_loop_iteration (file : File) (w : World) (rest : list (File * World))
    (st : MainAppState) :
  handleBulkUpload_loop ((file, w) :: rest) st
  = match handleBulkUpload_iteration file w st with
    | Some st1 => handleBulkUpload_loop rest st1
    | None => Suspended st
    end.
Proof.
  cbn [handleBulkUpload_loop]. unfold handleBulkUpload_iteration.
  destruct (handleBulkUpload_newTree w file); reflexivity.
Qed.

(** The records and the failures of the files after some that all settle. *)
Lemma bulk_failures_app (done rest : list (File * World)) :
  Forall settles done ->
  bulk_failures (done ++ rest) = (bulk_failures done ++ bulk_failures rest)%list.
Proof.
  induction 1 as [|[file w] done Hfw _ IH]; [reflexivity|].
  unfold settles in Hfw. cbn [fst snd] in Hfw. cbn [app bulk_failures].
  destruct (handleBulkUpload_newTree w file); [exact IH | rewrite IH; reflexivity | contradiction].
Qed.

Lemma bulk_records_app (done rest : list (File * World)) :
  Forall settles done ->
  bulk_records (done ++ rest) = (bulk_records done ++ bulk_records rest)%list.
Proof.
  induction 1 as [|[file w] done Hfw _ IH]; [reflexivity|].
  unfold settles in Hfw. cbn [fst snd] in Hfw. cbn [app bulk_records].
  destruct (handleBulkUpload_newTree w file); [rewrite IH; reflexivity | exact IH | contradiction].
Qed.

Lemma bulk_records_failures_length (done : list (File * World)) :
  Forall settles done ->
  length (bulk_records done) + length (bulk_failures done) = length done.
Proof.
  induction 1 as [|[file w] done Hfw _ IH]; [reflexivity|].
  unfold settles in Hfw. cbn [fst snd] in Hfw. cbn [bulk_records bulk_failures].
  destruct (handleBulkUpload_newTree w file); [cbn; lia | cbn; lia | contradiction].
Qed.

(** The progress record at the point where a run of [handleBulkUpload] is
    left or suspended. *)
Lemma handleBulkUpload_progress (files : list (File * World)) (st : MainAppState) :
  exists p,
    bulkUploadProgress (state_of (handleBulkUpload files st)) = Some p
    /\ BulkUploadProgress.total p = length files
    /\ BulkUploadProgress.processed p
       = BulkUploadProgress.successes p + length (BulkUploadProgress.failures p)
    /\ BulkUploadProgress.processed p <= length files
    /\ BulkUploadProgress.successes p = length (bulk_records files)
    /\ BulkUploadProgress.failures p = bulk_failures files.
Proof.
  unfold handleBulkUpload.
  set (st0 := setBulkUploadProgress _ _).
  set (p0 := {| BulkUploadProgress.total := length files;
                BulkUploadProgress.processed := 0; BulkUploadProgress.successes := 0;
                BulkUploadProgress.failures := [] |}).
  assert (Hp0 : bulkUploadProgress st0 = Some p0) by reflexivity.
  destruct (handleBulkUpload_loop_progress files st0 p0 Hp0) as (p & Hp & Ht & Hs & Hinv & Hle).
  destruct (handleBulkUpload_loop_failures files st0 p0 Hp0) as (q & Hq & Hf).
  rewrite Hp in Hq. injection Hq as <-.
  exists p. split; [exact Hp|]. cbn in Ht, Hs, Hinv, Hle, Hf.
  repeat split; try lia. exact Hf.
Qed.

(** At whatever point a run of [handleBulkUpload] on [N] files stands, left
    or suspended: [total] is [N]; the files counted as processed are the
    successes and the recorded failures, and there are at most [N] of them;
    the successes are the records the run has put in the store; and the
    modal is shown, with its close button exactly when [processed] has
    reached [N]. *)
Theorem bulk_upload_progress_invariant (files : list (File * World)) (st : MainAppState) :
  exists p,
    bulkUploadProgress (state_of (handleBulkUpload files st)) = Some p
    /\ BulkUploadProgress.total p = length files
    /\ BulkUploadProgress.processed p
       = BulkUploadProgress.successes p + length (BulkUploadProgress.failures p)
    /\ BulkUploadProgress.processed p <= BulkUploadProgress.total p
    /\ BulkUploadProgress.successes p = length (bulk_records files)
    /\ trees (state_of (handleBulkUpload files st))
       = (reverse (bulk_records files) ++ trees st)%list
    /\ BulkUploadModal (state_of (handleBulkUpload files st))
       = if Nat.eqb (BulkUploadProgress.processed p) (length files)
         then ModalWithClose else ModalRunning.
Proof.
  destruct (handleBulkUpload_progress files st) as (p & Hp & Ht & Hproc & Hle & Hs & _).
  exists p. split; [exact Hp|]. split; [exact Ht|]. split; [exact Hproc|].
  split; [lia|]. split; [exact Hs|]. split; [apply handleBulkUpload_trees|].
  unfold BulkUploadModal, BulkUploadModal_isFinished. rewrite Hp, Ht.
  unfold handleBulkUpload. rewrite handleBulkUpload_loop_isBulkUploading. reflexivity.
Qed.

(** The failures a run records are one entry per file whose [try] block
    threw, in the order of the files, each with the name of its file and
    the message of what was thrown, or the default text when that has no
    message or an empty one: no entry has an empty error text. *)
Theorem bulk_upload_failures (files : list (File * World)) (st : MainAppState) :
  exists p,
    bulkUploadProgress (state_of (handleBulkUpload files st)) = Some p
    /\ Forall (fun f => BulkUploadProgress.error f <> EmptyString)
         (BulkUploadProgress.failures p)
    /\ (forall done file w rest err,
          files = (done ++ (file, w) :: rest)%list ->
          Forall settles done ->
          handleBulkUpload_newTree w file = Rejected err ->
          BulkUploadProgress.failures p
          = (bulk_failures done
             ++ {| BulkUploadProgress.fileName := name file;
                   BulkUploadProgress.error :=
                     match message err with
                     | Some (String c m) => String c m
                     | _ => "Terjadi kesalahan tidak diketahui."
                     end |} :: bulk_failures rest)%list)
    /\ (Forall (fun fw => exists t, handleBulkUpload_newTree fw.2 fw.1 = Resolved t) files ->
        BulkUploadProgress.failures p = []).
Proof.
  destruct (handleBulkUpload_progress files st) as (p & Hp & _ & _ & _ & _ & Hf).
  exists p. split; [exact Hp|].
  split; [rewrite Hf; apply bulk_failures_not_empty|]. split.
  - intros done file w rest err -> Hdone E. rewrite Hf.
    rewrite (bulk_failures_app done _ Hdone). cbn [bulk_failures]. rewrite E.
    f_equal. f_equal. f_equal. unfold message_or_default.
    destruct (message err) as [[|c m]|]; reflexivity.
  - intros Hall. rewrite Hf. clear Hf Hp.
    induction Hall as [|[file w] rest [t Ht] _ IH]; [reflexivity|].
    cbn [fst snd] in Ht. cbn [bulk_failures]. rewrite Ht. exact IH.
Qed.

(** A run is left exactly when the [try] block of every file settles, and
    then every file has been processed and the modal shows its close
    button. *)
Theorem bulk_upload_completes_iff (files : list (File * World)) (st : MainAppState) :
  (Forall settles files <-> exists st', handleBulkUpload files st = Completed st')
  /\ (forall st', handleBulkUpload files st = Completed st' ->
        BulkUploadModal st' = ModalWithClose
        /\ exists p,
             bulkUploadProgress st' = Some p
             /\ BulkUploadProgress.processed p = length files
             /\ BulkUploadProgress.successes p + length (BulkUploadProgress.failures p)
                = length files).
Proof.
  split.
  - split.
    + intros Hall. destruct (handleBulkUpload_counters files st Hall) as (st' & _ & Hrun & _).
      exists st'. exact Hrun.
    + intros [st' Hrun]. exact (handleBulkUpload_loop_completed_settles files _ st' Hrun).
  - intros st' Hrun.
    pose proof (handleBulkUpload_loop_completed_settles files _ st' Hrun) as Hall.
    destruct (handleBulkUpload_counters files st Hall)
      as (st'' & p & Hrun' & Hp & Ht & Hproc & Hsum & _).
    rewrite Hrun in Hrun'. injection Hrun' as <-.
    split; [|exists p; split; [exact Hp|]; split; [exact Hproc | exact Hsum]].
    unfold BulkUploadModal, BulkUploadModal_isFinished. rewrite Hp, Hproc, Ht, Nat.eqb_refl.
    assert (Hflag : isBulkUploading (state_of (handleBulkUpload files st)) = true).
    { unfold handleBulkUpload. rewrite handleBulkUpload_loop_isBulkUploading. reflexivity. }
    rewrite Hrun in Hflag. cbn [state_of] in Hflag. rewrite Hflag. reflexivity.
Qed.
(** A file that is read but is not an image the browser can decode suspends
    the run for good: the promise of [compressImage] stays unsettled, no
    failure is recorded for the file, the files after it are not processed,
    the count of processed files stays at the number of files before it, and
    the modal stays without its close button. *)
Theorem undecodable_file_suspends_the_run (done rest : list (File * World))
    (file : File) (w : World) (result : string) (st : MainAppState) :
  Forall settles done ->
  FileReader_readAsDataURL w file = Normal result ->
  Image_onload w result = None ->
  exists st' p,
    handleBulkUpload (done ++ (file, w) :: rest) st = Suspended st'
    /\ bulkUploadProgress st' = Some p
    /\ BulkUploadProgress.total p = length done + S (length rest)
    /\ BulkUploadProgress.processed p = length done
    /\ BulkUploadProgress.failures p = bulk_failures done
    /\ trees st' = (reverse (bulk_records done) ++ trees st)%list
    /\ BulkUploadModal st' = ModalRunning.
Proof.
  intros Hdone Hread Himg.
  assert (Hpending : handleBulkUpload_newTree w file = Pending).
  { unfold handleBulkUpload_newTree, await.
    rewrite (compressImage_pending w file _ result Hread Himg). reflexivity. }
  assert (Hrecords : bulk_records (done ++ (file, w) :: rest) = bulk_records done).
  { rewrite (bulk_records_app done _ Hdone). cbn [bulk_records]. rewrite Hpending.
    apply app_nil_r. }
  assert (Hfailures : bulk_failures (done ++ (file, w) :: rest) = bulk_failures done).
  { rewrite (bulk_failures_app done _ Hdone). cbn [bulk_failures]. rewrite Hpending.
    apply app_nil_r. }
  pose proof (bulk_records_failures_length done Hdone) as Hlen.
  destruct (handleBulkUpload_progress (done ++ (file, w) :: rest) st)
    as (p & Hp & Ht & Hproc & _ & Hs & Hf).
  rewrite Hrecords in Hs. rewrite Hfailures in Hf.
  rewrite length_app in Ht. cbn [length] in Ht.
  pose proof (handleBulkUpload_trees (done ++ (file, w) :: rest) st) as Htrees.
  rewrite Hrecords in Htrees.
  assert (Hflag : isBulkUploading (state_of (handleBulkUpload (done ++ (file, w) :: rest) st))
                  = true).
  { unfold handleBulkUpload. rewrite handleBulkUpload_loop_isBulkUploading. reflexivity. }
  assert (Hrun : handleBulkUpload (done ++ (file, w) :: rest) st
                 = Suspended (state_of (handleBulkUpload (done ++ (file, w) :: rest) st))).
  { unfold handleBulkUpload.
    rewrite (handleBulkUpload_loop_suspended done rest file w _ Hdone Hpending).
    reflexivity. }
  exists (state_of (handleBulkUpload (done ++ (file, w) :: rest) st)), p.
  split; [exact Hrun|]. split; [exact Hp|]. split; [exact Ht|].
  assert (Hprocessed : BulkUploadProgress.processed p = length done).
  { rewrite Hproc, Hs, Hf. exact Hlen. }
  split; [exact Hprocessed|]. split; [exact Hf|]. split; [exact Htrees|].
  unfold BulkUploadModal, BulkUploadModal_isFinished. rewrite Hflag, Hp, Hprocessed, Ht.
  destruct (Nat.eqb_spec (length done) (length done + S (length rest))) as [E|_];
    [lia | reflexivity].
Qed.
End BulkUploadMore.

(** ** What the bulk import accepts *)

Section BulkUploadValidation.
Context `{Estimator}.

(** The steps of the [try] block once the image is compressed and the
    analysis has answered with a result. *)
Lemma handleBulkUpload_newTree_analysed (w : World) (file : File)
    (compressedBase64 : string) (a : TreeAnalysisResult.t) :
  compressImage w file 0.7%float = Resolved compressedBase64 ->
  analyzeTreeImage w (split_comma_1 compressedBase64) "" = Resolved (Some a) ->
  truthy_string (TreeAnalysisResult.species a) = true ->
  String.eqb (TreeAnalysisResult.species a) "Tidak Diketahui" = false ->
  truthy_number (TreeAnalysisResult.estimatedDbh a) = true ->
  truthy_number (TreeAnalysisResult.estimatedHeight a) = true ->
  forall coords : Promise (number * number),
    coords = (if truthy_number (TreeAnalysisResult.latitude a)
                 && truthy_number (TreeAnalysisResult.longitude a)
              then Resolved (TreeAnalysisResult.latitude a, TreeAnalysisResult.longitude a)
              else match getCurrentPosition w with
                   | Resolved position => Resolved position
                   | Rejected _ =>
                       Rejected (Error "AI tidak menemukan GPS & akses lokasi ditolak.")
                   | Pending => Pending
                   end) ->
    match coords with
    | Resolved (la, lo) =>
        exists t, handleBulkUpload_newTree w file = Resolved t
                  /\ latitude t = la /\ longitude t = lo
                  /\ species t = TreeAnalysisResult.species a
                  /\ dbh t = TreeAnalysisResult.estimatedDbh a
                  /\ height t = TreeAnalysisResult.estimatedHeight a
                  /\ condition t = TreeAnalysisResult.condition a
                  /\ photo t = compressedBase64
    | Rejected e => handleBulkUpload_newTree w file = Rejected e
    | Pending => handleBulkUpload_newTree w file = Pending
    end.
Proof.
  intros Hc Ha Hsp Hunknown Hd Hh coords ->.
  unfold handleBulkUpload_newTree, await. rewrite Hc, Ha, Hsp, Hunknown, Hd, Hh.
  cbn [negb orb].
  destruct (truthy_number (TreeAnalysisResult.latitude a)); cbn [negb orb andb].
  - destruct (truthy_number (TreeAnalysisResult.longitude a)); cbn [negb].
    + eexists. split; [reflexivity|]. repeat split.
    + destruct (getCurrentPosition w) as [[la lo]|e|]; [|reflexivity|reflexivity].
      eexists. split; [reflexivity|]. repeat split.
  - destruct (getCurrentPosition w) as [[la lo]|e|]; [|reflexivity|reflexivity].
    eexists. split; [reflexivity|]. repeat split.
Qed.

(** Every record the bulk import places in the store passed its checks:
    its species is not empty and is not the text for an unknown tree, its
    diameter and its height are numbers other than [0] and [NaN], its
    photograph is what [compressImage] resolved with, it is marked as far
    from any building ([None]) and carries the note of the bulk import. *)
Theorem bulk_records_are_validated (w : World) (file : File) (t : TreeData) :
  handleBulkUpload_newTree w file = Resolved t ->
  truthy_string (species t) = true
  /\ species t <> "Tidak Diketahui"
  /\ truthy_number (dbh t) = true
  /\ truthy_number (height t) = true
  /\ compressImage w file 0.7%float = Resolved (photo t)
  /\ proximityToBuilding t = None_
  /\ notes t = "Ditambahkan melalui unggahan massal.".
Proof.
  unfold handleBulkUpload_newTree, await.
  destruct (compressImage w file _) as [compressedBase64| |]; try discriminate.
  destruct (analyzeTreeImage w _ _) as [[a|]| |]; try discriminate.
  destruct (truthy_string (TreeAnalysisResult.species a)) eqn:Hsp; cbn [negb orb];
    [|discriminate].
  destruct (String.eqb (TreeAnalysisResult.species a) "Tidak Diketahui") eqn:Hunknown;
    [discriminate|].
  destruct (truthy_number (TreeAnalysisResult.estimatedDbh a)) eqn:Hd; cbn [negb orb];
    [|discriminate].
  destruct (truthy_number (TreeAnalysisResult.estimatedHeight a)) eqn:Hh; cbn [negb];
    [|discriminate].
  apply String.eqb_neq in Hunknown.
  repeat match goal with
         | |- context [if ?c then _ else _] => destruct c; try discriminate
         | |- context [match getCurrentPosition w with _ => _ end] =>
             destruct (getCurrentPosition w); try discriminate
         end;
    intros E; injection E as <-; cbn; repeat split; assumption.
Qed.

(** The coordinates of a record of the bulk import. When the analysis gives
    a latitude and a longitude that are both other than [0] and [NaN], they
    are the record's and the geolocation provider's answer has no effect.
    When one of them is [0] or [NaN], both are taken from the device's
    position; when the position is refused, the file fails with the
    message about GPS, whatever the provider's error was. *)
Theorem bulk_upload_coordinates (w : World) (file : File)
    (compressedBase64 : string) (a : TreeAnalysisResult.t) :
  compressImage w file 0.7%float = Resolved compressedBase64 ->
  analyzeTreeImage w (split_comma_1 compressedBase64) "" = Resolved (Some a) ->
  truthy_string (TreeAnalysisResult.species a) = true ->
  String.eqb (TreeAnalysisResult.species a) "Tidak Diketahui" = false ->
  truthy_number (TreeAnalysisResult.estimatedDbh a) = true ->
  truthy_number (TreeAnalysisResult.estimatedHeight a) = true ->
  (truthy_number (TreeAnalysisResult.latitude a) = true ->
   truthy_number (TreeAnalysisResult.longitude a) = true ->
   exists t, handleBulkUpload_newTree w file = Resolved t
             /\ latitude t = TreeAnalysisResult.latitude a
             /\ longitude t = TreeAnalysisResult.longitude a)
  /\ (truthy_number (TreeAnalysisResult.latitude a) = false
      \/ truthy_number (TreeAnalysisResult.longitude a) = false ->
      match getCurrentPosition w with
      | Resolved (la, lo) =>
          exists t, handleBulkUpload_newTree w file = Resolved t
                    /\ latitude t = la /\ longitude t = lo
      | Rejected _ =>
          handleBulkUpload_newTree w file
          = Rejected (Error "AI tidak menemukan GPS & akses lokasi ditolak.")
      | Pending => handleBulkUpload_newTree w file = Pending
      end).
Proof.
  intros Hc Ha Hsp Hunknown Hd Hh.
  pose proof (handleBulkUpload_newTree_analysed w file compressedBase64 a
                Hc Ha Hsp Hunknown Hd Hh _ eq_refl) as Hsteps.
  split.
  - intros Hla Hlo. rewrite Hla, Hlo in Hsteps. cbn [andb] in Hsteps.
    destruct Hsteps as (t & Ht & Hlat & Hlon & _). exists t. auto.
  - intros Hmissing.
    assert (Hboth : truthy_number (TreeAnalysisResult.latitude a)
                    && truthy_number (TreeAnalysisResult.longitude a) = false).
    { destruct Hmissing as [-> | ->]; [reflexivity | apply andb_false_r]. }
    rewrite Hboth in Hsteps.
    destruct (getCurrentPosition w) as [[la lo]|e|]; [|exact Hsteps|exact Hsteps].
    destruct Hsteps as (t & Ht & Hlat & Hlon & _). exists t. auto.
Qed.
End BulkUploadValidation.

(** [split(',')[1]] on a data URL: the characters after the comma that ends
    the header, when neither the header nor what follows has a comma; and
    nothing ([undefined]) for a string without a comma. *)
Theorem split_comma_1_payload (header payload : string) :
  no_comma header = true ->
  (no_comma payload = true ->
   split_comma_1 (header ++ String ","%char payload) = Some payload)
  /\ split_comma_1 header = None.
Proof.
  intros Hheader.
  assert (Hup : forall s, no_comma s = true -> up_to_comma s = s).
  { induction s as [|c s IH]; [reflexivity|]. cbn [no_comma up_to_comma].
    intros Hs. apply andb_true_iff in Hs as [Hc Hs]. apply negb_true_iff in Hc.
    rewrite Hc, IH by exact Hs. reflexivity. }
  induction header as [|c header IH].
  - split; [|reflexivity]. intros Hp.
    change (Some (up_to_comma payload) = Some payload).
    rewrite Hup by exact Hp. reflexivity.
  - cbn [no_comma] in Hheader. apply andb_true_iff in Hheader as [Hc Hheader].
    apply negb_true_iff in Hc.
    change (String c header ++ String ","%char payload)
      with (String c (header ++ String ","%char payload)).
    cbn [split_comma_1]. rewrite Hc. exact (IH Hheader).
Qed.

(** The header and the payload of a JPEG data URL. *)
Lemma split_comma_1_payload_witness :
  split_comma_1 "data:image/jpeg;base64,/9j/4AAQSkZJRg==" = Some "/9j/4AAQSkZJRg=="
  /\ split_comma_1 "data:image/jpeg;base64" = None.
Proof.
  destruct (split_comma_1_payload "data:image/jpeg;base64" "/9j/4AAQSkZJRg==" eq_refl)
    as [Hpayload Hnone].
  split; [exact (Hpayload eq_refl) | exact Hnone].
Defined.

(** ** The single-image analysis and the report *)

(** [handleImageAnalysis] and [handleGenerateReport] never reject. A
    rejected analysis resolves to [null], with the banner about the API key,
    and a rejected report resolves normally, with the banner about the PDF;
    a resolved analysis is passed on as it is and a resolved report
    resolves, both without a banner; the handler is pending exactly when its
    call never settles. The banner is set exactly when the call was
    rejected, a banner left by an earlier operation being cleared at the
    start; the busy flag of the handler is cleared as soon as its call
    settles, and stays set only when the call never settles; neither
    handler touches the other's busy flag. *)
Theorem analysis_and_report_handlers (w : World) (base64Image notes : string)
    (report : Promise unit) (st : Ui.t) :
  let analysis := analyzeTreeImage w (Some base64Image) notes in
  let analysed := handleImageAnalysis w base64Image notes st in
  let reported := handleGenerateReport report st in
  (forall e, analysed.1 <> Rejected e)
  /\ (forall e, analysis = Rejected e ->
       analysed.1 = Resolved None
       /\ Ui.error analysed.2
          = Some "Gagal menganalisis gambar dengan AI. Harap periksa kunci API Anda dan coba lagi."
       /\ Ui.isAnalyzing analysed.2 = false)
  /\ (forall result, analysis = Resolved result ->
       analysed.1 = Resolved result
       /\ Ui.error analysed.2 = None
       /\ Ui.isAnalyzing analysed.2 = false)
  /\ (analysed.1 = Pending <-> analysis = Pending)
  /\ (forall result, analysed.1 = Resolved (Some result) <->
                     analysis = Resolved (Some result))
  /\ (Ui.isAnalyzing analysed.2 = true <-> analysis = Pending)
  /\ (Ui.error analysed.2 = None <-> forall e, analysis <> Rejected e)
  /\ Ui.isGeneratingReport analysed.2 = Ui.isGeneratingReport st
  /\ (forall e, reported.1 <> Rejected e)
  /\ (forall e, report = Rejected e ->
       reported.1 = Resolved tt
       /\ Ui.error reported.2 = Some "Tidak dapat membuat laporan PDF."
       /\ Ui.isGeneratingReport reported.2 = false)
  /\ (forall u, report = Resolved u ->
       reported.1 = Resolved tt
       /\ Ui.error reported.2 = None
       /\ Ui.isGeneratingReport reported.2 = false)
  /\ (reported.1 = Pending <-> report = Pending)
  /\ (Ui.isGeneratingReport reported.2 = true <-> report = Pending)
  /\ (Ui.error reported.2 = None <-> forall e, report <> Rejected e)
  /\ Ui.isAnalyzing reported.2 = Ui.isAnalyzing st.
Proof.
  intros analysis analysed reported. subst analysis analysed reported.
  unfold handleImageAnalysis, handleGenerateReport.
  destruct (analyzeTreeImage w (Some base64Image) notes) as [r|e|];
    destruct report as [[]|e'|]; cbn;
    repeat match goal with
           | |- _ /\ _ => split
           | |- _ <-> _ => split
           | |- forall _, _ => intro
           | |- _ <> _ => intro
           end;
    try reflexivity; try congruence;
    try match goal with
        | Hall : forall e, Rejected ?x <> Rejected e |- _ => destruct (Hall x eq_refl)
        end.
Qed.

(** ** The further statements at concrete inputs *)

(** The record built from a good photograph. *)
Lemma bulk_records_are_validated_witness :
  exists t,
    @handleBulkUpload_newTree Sample.estimator Sample.photo_ok.2 Sample.photo_ok.1 = Resolved t
    /\ species t <> "Tidak Diketahui"
    /\ truthy_number (dbh t) = true
    /\ truthy_number (height t) = true.
Proof.
  eexists. split; [vm_compute; reflexivity|].
  match goal with
  | |- species ?t <> _ /\ _ =>
      destruct (@bulk_records_are_validated Sample.estimator Sample.photo_ok.2
                  Sample.photo_ok.1 t) as (_ & Hs & Hd & Hh & _)
  end; [vm_compute; reflexivity|].
  split; [exact Hs|]. split; [exact Hd | exact Hh].
Defined.

(** A photograph taken on the equator: the analysis gives latitude [0],
    the device refuses to give its position, and the file fails. *)
Lemma bulk_upload_coordinates_witness :
  let a :=
    {| TreeAnalysisResult.species := "Jati"; TreeAnalysisResult.latitude := 0;
       TreeAnalysisResult.longitude := 109.3; TreeAnalysisResult.condition := HEALTHY;
       TreeAnalysisResult.estimatedDbh := 40; TreeAnalysisResult.estimatedHeight := 15 |}%float in
  @handleBulkUpload_newTree Sample.estimator (Sample.world true (Resolved (Some a)))
    {| name := "khatulistiwa.jpg" |}
  = Rejected (Error "AI tidak menemukan GPS & akses lokasi ditolak.").
Proof.
  intros a.
  destruct (@bulk_upload_coordinates Sample.estimator (Sample.world true (Resolved (Some a)))
              {| name := "khatulistiwa.jpg" |} "data:image/jpeg;base64,BBBB" a
              eq_refl eq_refl eq_refl eq_refl eq_refl eq_refl)
    as [_ Hmissing].
  exact (Hmissing (or_introl eq_refl)).
Defined.

(** A batch of three files whose second one is not an image. *)
Lemma undecodable_file_suspends_the_run_witness :
  exists st' p,
    @handleBulkUpload Sample.estimator
      [Sample.photo_unknown; Sample.not_an_image; Sample.photo_ok] Sample.mainApp
    = Suspended st'
    /\ bulkUploadProgress st' = Some p
    /\ BulkUploadProgress.processed p = 1
    /\ BulkUploadModal st' = ModalRunning.
Proof.
  destruct (@undecodable_file_suspends_the_run Sample.estimator
              [Sample.photo_unknown] [Sample.photo_ok]
              Sample.not_an_image.1 Sample.not_an_image.2
              "data:application/octet-stream;base64,AAAA" Sample.mainApp)
    as (st' & p & Hrun & Hp & _ & Hprocessed & _ & _ & Hmodal).
  - repeat constructor. vm_compute. intros E. discriminate E.
  - reflexivity.
  - reflexivity.
  - exists st', p. split; [exact Hrun|]. split; [exact Hp|].
    split; [exact Hprocessed | exact Hmodal].
Defined.

(** An analysis and a report that are both rejected, with a banner left
    by an earlier operation on the screen. *)
Lemma analysis_and_report_handlers_witness :
  let w := Sample.world true (Rejected (Error "quota")) in
  let st := {| Ui.isAnalyzing := false; Ui.isGeneratingReport := false;
               Ui.error := Some "Tidak dapat membuat laporan PDF." |} in
  handleImageAnalysis w "/9j/4AAQSkZJRg==" "" st
  = (Resolved None,
     {| Ui.isAnalyzing := false; Ui.isGeneratingReport := false;
        Ui.error :=
          Some "Gagal menganalisis gambar dengan AI. Harap periksa kunci API Anda dan coba lagi." |})
  /\ (handleGenerateReport (Rejected (Error "canvas")) st).1 = Resolved tt
  /\ Ui.error (handleGenerateReport (Rejected (Error "canvas")) st).2
     = Some "Tidak dapat membuat laporan PDF.".
Proof.
  intros w st.
  destruct (analysis_and_report_handlers w "/9j/4AAQSkZJRg==" ""
              (Rejected (Error "canvas")) st)
    as (_ & Ha & _ & _ & _ & _ & _ & Hg & _ & Hr & _).
  destruct (Ha (Error "quota") eq_refl) as (H1 & H2 & H3).
  destruct (Hr (Error "canvas") eq_refl) as (H4 & H5 & _).
  split; [|split; [exact H4 | exact H5]].
  destruct (handleImageAnalysis w "/9j/4AAQSkZJRg==" "" st) as [p [ia ig er]].
  cbn in H1, H2, H3, Hg. subst. reflexivity.
Defined.
